(** * The IP layer of the router (ip.c)

    A shallow embedding of [src/ip.c]: the routing-table lookup, the header
    validator, the forwarding decision of [handleIPDatagram], the delivery
    dispatcher [sendIPDatagram] and the ICMP-on-IP composer.

    Machine integers are [Z] with the wrap-around written out.  The linked
    lists of the router instance ([sr->routing_table], [sr->if_list]) are
    Rocq lists in [next] order.  Calls into the collaborators (ARP, Ethernet,
    the datagram buffer, the ICMP layer, the allocator, stdout) are recorded as
    events of a trace; a failed [assert] aborts the run, and a write past the
    end of an allocated buffer ends it as an overrun. *)

From Stdlib Require Import ZArith List String Ascii Bool Lia.
Import ListNotations.
Local Open Scope Z_scope.

(** ** Fixed-width integers and byte order *)

Definition uint4 (x : Z) : Z := x mod 2 ^ 4.
Definition uint8 (x : Z) : Z := x mod 2 ^ 8.
Definition uint16 (x : Z) : Z := x mod 2 ^ 16.
Definition uint32 (x : Z) : Z := x mod 2 ^ 32.

(** Byte [i] (0 is the least significant) of an integer. *)
Definition byte_of (x i : Z) : Z := (x / 2 ^ (8 * i)) mod 2 ^ 8.

Definition swap16 (x : Z) : Z := byte_of x 0 * 2 ^ 8 + byte_of x 1.

Definition swap32 (x : Z) : Z :=
  byte_of x 0 * 2 ^ 24 + byte_of x 1 * 2 ^ 16 + byte_of x 2 * 2 ^ 8
  + byte_of x 3.

(** The byte order of the machine the router runs on. *)
Inductive endianness : Type := LittleEndian | BigEndian.

(** [ntohl], [ntohs], [htons] of <arpa/inet.h>: the argument is converted to
    the unsigned type of the parameter, and the bytes are swapped on a
    little-endian host. *)
Definition ntohl (host : endianness) (x : Z) : Z :=
  match host with
  | LittleEndian => swap32 x
  | BigEndian => uint32 x
  end.

Definition ntohs (host : endianness) (x : Z) : Z :=
  match host with
  | LittleEndian => swap16 x
  | BigEndian => uint16 x
  end.

Definition htons (host : endianness) (x : Z) : Z := ntohs host x.
Definition htonl (host : endianness) (x : Z) : Z := ntohl host x.

(** The bytes, in memory order, of a 16-bit and of a 32-bit object. *)
Definition bytes16 (host : endianness) (x : Z) : list Z :=
  match host with
  | LittleEndian => [byte_of x 0; byte_of x 1]
  | BigEndian => [byte_of x 1; byte_of x 0]
  end.

Definition bytes32 (host : endianness) (x : Z) : list Z :=
  match host with
  | LittleEndian => [byte_of x 0; byte_of x 1; byte_of x 2; byte_of x 3]
  | BigEndian => [byte_of x 3; byte_of x 2; byte_of x 1; byte_of x 0]
  end.

(** The [s_addr] value (network byte order, as the host reads it) of the
    dotted quad [a.b.c.d]. *)
Definition inet_addr (host : endianness) (a b c d : Z) : Z :=
  htonl host (a * 2 ^ 24 + b * 2 ^ 16 + c * 2 ^ 8 + d).

(** ** Data model *)

(** [struct sr_rt] (sr_rt.h): one routing-table entry.  Addresses are
    [s_addr] values, in network byte order. *)
Record sr_rt : Type := {
  dest : Z;
  gw : Z;
  mask : Z;
  interface : string
}.

(** [struct sr_if] (sr_if.h): one interface of the router. *)
Record sr_if : Type := {
  name : string;
  addr : list Z;
  ip : Z
}.

(** [struct sr_instance]: the two lists this layer reads. *)
Record sr_instance : Type := {
  if_list : list sr_if;
  routing_table : list sr_rt
}.

(** ** Routing-table lookup *)

(** The two locals the loop of [lookupRoutingTable] updates.  A pointer to
    an entry is its position in the list together with the entry there. *)
Record lookup_state : Type := {
  longest_prefix : Z;
  rt_entry_with_longest_prefix : option (nat * sr_rt)
}.

Section Lookup.

Variable host : endianness.

Definition masked_rt_dest_ip (e : sr_rt) : Z :=
  Z.land (ntohl host (dest e)) (ntohl host (mask e)).

Definition masked_dest_host_ip (dest_host_ip : Z) (e : sr_rt) : Z :=
  Z.land (ntohl host dest_host_ip) (ntohl host (mask e)).

(** The first conjunct of the loop's test: the entry's subnet contains the
    destination. *)
Definition rt_matches (dest_host_ip : Z) (e : sr_rt) : bool :=
  masked_rt_dest_ip e =? masked_dest_host_ip dest_host_ip e.

(** The [while (current_rt_entry)] loop; [pos] is the position of the
    entry [current_rt_entry] points to. *)
Fixpoint lookup_loop (dest_host_ip : Z) (current_rt_entry : list sr_rt)
  (pos : nat) (st : lookup_state) : lookup_state :=
  match current_rt_entry with
  | [] => st
  | e :: next =>
      let st' :=
        if (masked_rt_dest_ip e =? masked_dest_host_ip dest_host_ip e)
           && (masked_dest_host_ip dest_host_ip e >=? longest_prefix st)
        then {| longest_prefix := masked_dest_host_ip dest_host_ip e;
                rt_entry_with_longest_prefix := Some (pos, e) |}
        else st
      in lookup_loop dest_host_ip next (S pos) st'
  end.

Definition lookupRoutingTable (sr : sr_instance) (dest_host_ip : Z)
  : option (nat * sr_rt) :=
  rt_entry_with_longest_prefix
    (lookup_loop dest_host_ip (routing_table sr) 0%nat
       {| longest_prefix := 0; rt_entry_with_longest_prefix := None |}).

End Lookup.

(** The table of the longest-prefix-match example: 10.0.0.0/8 via one
    gateway and 10.0.1.0/24 via another. *)
Definition rt_slash8 (host : endianness) : sr_rt :=
  {| dest := inet_addr host 10 0 0 0; gw := inet_addr host 10 0 0 1;
     mask := inet_addr host 255 0 0 0; interface := "eth1" |}.

Definition rt_slash24 (host : endianness) : sr_rt :=
  {| dest := inet_addr host 10 0 1 0; gw := inet_addr host 10 0 1 1;
     mask := inet_addr host 255 255 255 0; interface := "eth2" |}.

Definition sr_of_table (t : list sr_rt) : sr_instance :=
  {| if_list := []; routing_table := t |}.

(** ** The IPv4 header and the datagram buffer *)

(** [struct ip] (declared in ip.h, which tests the host byte order to place
    the two 4-bit fields).  A field holds the value the host reads from it:
    the multi-byte fields are kept in network byte order. *)
Record ip_hdr : Type := {
  ip_hl : Z;
  ip_v : Z;
  ip_tos : Z;
  ip_len : Z;
  ip_id : Z;
  ip_off : Z;
  ip_ttl : Z;
  ip_p : Z;
  ip_sum : Z;
  ip_src : Z;
  ip_dst : Z
}.

Definition set_ip_ttl (h : ip_hdr) (v : Z) : ip_hdr :=
  {| ip_hl := ip_hl h; ip_v := ip_v h; ip_tos := ip_tos h; ip_len := ip_len h;
     ip_id := ip_id h; ip_off := ip_off h; ip_ttl := v; ip_p := ip_p h;
     ip_sum := ip_sum h; ip_src := ip_src h; ip_dst := ip_dst h |}.

Definition set_ip_sum (h : ip_hdr) (v : Z) : ip_hdr :=
  {| ip_hl := ip_hl h; ip_v := ip_v h; ip_tos := ip_tos h; ip_len := ip_len h;
     ip_id := ip_id h; ip_off := ip_off h; ip_ttl := ip_ttl h; ip_p := ip_p h;
     ip_sum := v; ip_src := ip_src h; ip_dst := ip_dst h |}.

(** The 20 bytes of a [struct ip] in memory: version and header length
    share the first byte, version in the high half. *)
Definition ip_bytes (host : endianness) (h : ip_hdr) : list Z :=
  [uint4 (ip_v h) * 2 ^ 4 + uint4 (ip_hl h); byte_of (ip_tos h) 0]
  ++ bytes16 host (ip_len h) ++ bytes16 host (ip_id h)
  ++ bytes16 host (ip_off h)
  ++ [byte_of (ip_ttl h) 0; byte_of (ip_p h) 0]
  ++ bytes16 host (ip_sum h)
  ++ bytes32 host (ip_src h) ++ bytes32 host (ip_dst h).

(** A datagram buffer ([uint8_t* ip_datagram]): the header at its start,
    viewed through the cast to [struct ip*], and the bytes after it. *)
Record datagram : Type := {
  dg_hdr : ip_hdr;
  dg_data : list Z
}.

(** The bytes [csum] may read from a pointer to a header: the [len] bytes
    that start there. *)
Definition hdr_window (host : endianness) (h : ip_hdr) (after : list Z)
  (len : Z) : list Z :=
  firstn (Z.to_nat len) (ip_bytes host h ++ after).

(** ** Constants *)

(** IPPROTO_ICMP of <netinet/in.h>. *)
Definition IPPROTO_ICMP : Z := 1.

(** Modelled from the spec: the macros IPV4_VERSION and
    DEFAULT_IP_HEADER_LEN of ip.h, which is not part of the sources; the
    composer "produces a header with version 4, header-length 5 (no
    options)". *)
Definition IPV4_VERSION : Z := 4.
Definition DEFAULT_IP_HEADER_LEN : Z := 5.

(** The remaining defaults of ip.h and icmp.h, whose values the sources do
    not give. *)
Record ip_defaults : Type := {
  DEFAULT_IP_TOS : Z;
  DEFAULT_IP_ID : Z;
  DEFAULT_IP_FRAGMENT : Z;
  DEFAULT_IP_TTL : Z;
  MIN_ICMP_MSG_LEN : Z;
  ICMP_REQUEST : Z
}.

(** ** Calls into the collaborators *)

(** The three return codes of [resolveMAC] (ARP.h) that the switch of
    [sendIPDatagram] names, and any other [int] for its default branch. *)
Inductive resolve_status : Type :=
| ARP_RESOLVE_SUCCESS
| ARP_REQUEST_SENT
| ARP_RESOLVE_FAIL
| ARP_OTHER (code : Z).

(** One call that leaves this file, with its arguments.  A frame pointer is
    the link-layer header in front of the datagram, so a call that is given
    the frame sees the datagram as it is in the buffer at that moment. *)
Inductive event : Type :=
| ResolveMAC (next_hop_ip : Z) (iface : option sr_if) (status : resolve_status)
| SendEthFrameContainingIPDatagram
    (mac eth_hdr : list Z) (d : datagram) (iface : option sr_if) (len : Z)
| EthSendIPDatagram (mac : list Z) (d : datagram) (iface : option sr_if) (len : Z)
| BufferIPDatagram (next_hop_ip : Z) (d : datagram) (iface_name : string) (len : Z)
| HandleUndeliverableBufferedIPDatagram (next_hop_ip : Z) (iface : option sr_if)
| IcmpReply (eth_hdr : option (list Z)) (d : datagram) (len : Z) (iface_name : string)
| Printf (text : string)
| Malloc (size : Z)
| Free.

(** ** Runs: a trace of events and how the run ended *)

(** A run returns, or aborts on a failed [assert], or writes past the end
    of a buffer it allocated, after which what the program does is
    undefined. *)
Inductive outcome (A : Type) : Type :=
| Returned (a : A)
| Aborted
| Overrun.

Arguments Returned {A} a.
Arguments Aborted {A}.
Arguments Overrun {A}.

Definition run (A : Type) : Type := (list event * outcome A)%type.

(** The collaborators this file calls and cannot see: what they answer.
    [icmp_reply] is handed the frame that holds the datagram and works on it
    in place; it may call back into this file.  Its answer is a run of its
    own: the calls it makes, whether it comes back, its return code and the
    buffer as it leaves it. *)
Record collaborators : Type := {
  csum : list Z -> Z;
  resolveMAC : sr_instance -> Z -> option sr_if -> resolve_status * list Z;
  sr_get_interface : sr_instance -> string -> option sr_if;
  icmp_reply :
    sr_instance -> option (list Z) -> datagram -> Z -> string ->
    run (Z * datagram);
  icmp_type : list Z -> Z;
  malloc : Z -> option datagram
}.

Definition ret {A : Type} (a : A) : run A := ([], Returned a).

Definition bind {A B : Type} (m : run A) (k : A -> run B) : run B :=
  match m with
  | (t, Returned a) => let (t', r) := k a in (t ++ t', r)
  | (t, Aborted) => (t, Aborted)
  | (t, Overrun) => (t, Overrun)
  end.

Definition emit (e : event) : run unit := ([e], Returned tt).

(** [assert(c)]. *)
Definition assert (c : bool) : run unit :=
  if c then ret tt else ([], Aborted).

(** [assert(p)] on a pointer, which the code goes on to dereference. *)
Definition assert_ptr {A : Type} (p : option A) : run A :=
  match p with
  | Some a => ret a
  | None => ([], Aborted)
  end.

(** A write of [need] bytes from the start of a buffer of [size] bytes. *)
Definition write_within (need size : Z) : run unit :=
  if need <=? size then ret tt else ([], Overrun).

Notation "x <- m ;; k" := (bind m (fun x => k))
  (at level 61, m at next level, right associativity).
Notation "m ;; k" := (bind m (fun _ => k))
  (at level 61, right associativity).

Definition trace {A : Type} (r : run A) : list event := fst r.
Definition result {A : Type} (r : run A) : outcome A := snd r.

Definition nl : string := String (ascii_of_nat 10) EmptyString.

(** ** The functions of ip.c *)

Section Router.

Variable host : endianness.
Variable K : ip_defaults.
Variable C : collaborators.

(** [ipDatagramShouldBeDropped(struct ip ip_hdr)]: the header is passed by
    value, so the assignment to [ip_hdr.ip_sum] is to the callee's copy. *)
Definition ipDatagramShouldBeDropped (ip_hdr : ip_hdr) : bool :=
  if ntohs host (ip_len ip_hdr) <? 20 then true
  else if negb (ip_v ip_hdr =? 4) then true
  else if ip_hl ip_hdr >? 5 then true
  else
    let checksum := ip_sum ip_hdr in
    let ip_hdr := set_ip_sum ip_hdr 0 in
    if negb (checksum =? csum C (hdr_window host ip_hdr [] (4 * ip_hl ip_hdr)))
    then true
    else false.

(** [ip_dec_ttl(struct ip* ip_hdr)], on the header at the start of the
    buffer [d]. *)
Definition ip_dec_ttl (d : datagram) : run datagram :=
  assert (negb (ip_ttl (dg_hdr d) =? 0)) ;;
  let h1 := set_ip_ttl (dg_hdr d) (uint8 (ip_ttl (dg_hdr d) - 1)) in
  let h2 := set_ip_sum h1 0 in
  let h3 :=
    set_ip_sum h2
      (uint16 (csum C (hdr_window host h2 (dg_data d) (4 * ip_hl h2)))) in
  ret {| dg_hdr := h3; dg_data := dg_data d |}.

(** [setupIPHeaderForICMP]: the fields it assigns, in a header that holds
    [h] before the call. *)
Definition setupIPHeaderForICMP (h : ip_hdr)
  (ip_datagram_total_len src_ip dest_ip : Z) : ip_hdr :=
  {| ip_v := uint4 IPV4_VERSION;
     ip_hl := uint4 DEFAULT_IP_HEADER_LEN;
     ip_tos := uint8 (DEFAULT_IP_TOS K);
     ip_len := htons host ip_datagram_total_len;
     ip_id := htons host (DEFAULT_IP_ID K);
     ip_off := htons host (DEFAULT_IP_FRAGMENT K);
     ip_ttl := uint8 (DEFAULT_IP_TTL K);
     ip_p := uint8 IPPROTO_ICMP;
     ip_sum := ip_sum h;
     ip_src := uint32 src_ip;
     ip_dst := uint32 dest_ip |}.

(** [ipDatagramDestinedForMe]: the walk over [sr->if_list]. *)
Fixpoint destined_loop (iface : list sr_if) (dest_host_ip : Z) : bool :=
  match iface with
  | [] => false
  | i :: next =>
      if ip i =? dest_host_ip then true else destined_loop next dest_host_ip
  end.

Definition ipDatagramDestinedForMe (sr : sr_instance) (dest_host_ip : Z) : bool :=
  destined_loop (if_list sr) dest_host_ip.

(** [sendIPDatagram]: returns the buffer as this function leaves it. *)
Definition sendIPDatagram (sr : sr_instance) (next_hop_ip : Z)
  (interface : string) (ip_datagram : datagram) (eth_frame : option (list Z))
  (ip_datagram_len : Z) : run datagram :=
  d <- ip_dec_ttl ip_datagram ;;
  let iface := sr_get_interface C sr interface in
  let (resolveStatus, mac) := resolveMAC C sr next_hop_ip iface in
  emit (ResolveMAC next_hop_ip iface resolveStatus) ;;
  match resolveStatus with
  | ARP_RESOLVE_SUCCESS =>
      match eth_frame with
      | Some eth_hdr =>
          emit (SendEthFrameContainingIPDatagram mac eth_hdr d iface ip_datagram_len)
      | None =>
          emit (EthSendIPDatagram mac d iface ip_datagram_len)
      end ;;
      ret d
  | ARP_REQUEST_SENT =>
      emit (BufferIPDatagram next_hop_ip d interface ip_datagram_len) ;;
      emit (Printf ("ip packet buffered" ++ nl)) ;;
      ret d
  | ARP_RESOLVE_FAIL =>
      emit (HandleUndeliverableBufferedIPDatagram next_hop_ip iface) ;;
      ret d
  | ARP_OTHER _ => ret d
  end.

(** [forward]. *)
Definition forward (sr : sr_instance) (eth_frame : option (list Z))
  (ip_datagram : datagram) (ip_datagram_len : Z) : run datagram :=
  match lookupRoutingTable host sr (ip_dst (dg_hdr ip_datagram)) with
  | Some (_, rt_entry) =>
      let next_hop_ip := gw rt_entry in
      let interface := interface rt_entry in
      sendIPDatagram sr next_hop_ip interface ip_datagram eth_frame ip_datagram_len
  | None => ret ip_datagram
  end.

(** [processIPDatagramDestinedForMe]: returns the buffer as [icmp_reply]
    leaves it when that is called, and as it was otherwise. *)
Definition processIPDatagramDestinedForMe (sr : sr_instance)
  (eth_frame : option (list Z)) (ip_datagram : datagram)
  (ip_datagram_len : Z) : run datagram :=
  if ip_p (dg_hdr ip_datagram) =? IPPROTO_ICMP then
    emit (Printf ("IP packet is of type ICMP!" ++ nl)) ;;
    if icmp_type C (dg_data ip_datagram) =? ICMP_REQUEST K then
      emit (Printf ("Got ICMP REQUEST!" ++ nl)) ;;
      emit (IcmpReply eth_frame ip_datagram (uint32 (ip_datagram_len + 14)) "eth0") ;;
      answer <- icmp_reply C sr eth_frame ip_datagram
                  (uint32 (ip_datagram_len + 14)) "eth0" ;;
      if fst answer =? 0
      then emit (Printf ("Sent ICMP REPLY!" ++ nl)) ;; ret (snd answer)
      else ret (snd answer)
    else ret ip_datagram
  else ret ip_datagram.

(** [handleIPDatagram]: the entry point of the layer. *)
Definition handleIPDatagram (sr : sr_instance) (eth_frame : option (list Z))
  (ip_datagram : datagram) (ip_datagram_len : Z) : run datagram :=
  let ip_hdr := dg_hdr ip_datagram in
  if ipDatagramShouldBeDropped ip_hdr then ret ip_datagram
  else if ipDatagramDestinedForMe sr (ip_dst ip_hdr) then
    processIPDatagramDestinedForMe sr eth_frame ip_datagram ip_datagram_len
  else if negb (ip_ttl ip_hdr =? 0) then
    forward sr eth_frame ip_datagram ip_datagram_len
  else ret ip_datagram.

(** [sendIcmpMessageWithSrcIP]; [sizeof(struct ip)] is 20.  The buffer has
    [ip_datagram_total_len] bytes, the sum truncated to 16 bits: the header
    is written into its first 20 bytes and [memcpy] writes [icmp_msg_len]
    bytes after them, both past its end when the sum did not fit.
    [icmp_message] is the bytes at that pointer. *)
Definition sendIcmpMessageWithSrcIP (sr : option sr_instance)
  (icmp_message : option (list Z)) (icmp_msg_len dest_ip src_ip : Z)
  : run unit :=
  assert (icmp_msg_len >=? MIN_ICMP_MSG_LEN K) ;;
  msg <- assert_ptr icmp_message ;;
  s <- assert_ptr sr ;;
  assert (negb (src_ip =? 0)) ;;
  assert (negb (dest_ip =? 0)) ;;
  match lookupRoutingTable host s dest_ip with
  | None => ret tt
  | Some (_, rt_entry) =>
      let ip_datagram_total_len := uint16 (20 + icmp_msg_len) in
      emit (Malloc ip_datagram_total_len) ;;
      buf <- assert_ptr (malloc C ip_datagram_total_len) ;;
      write_within 20 ip_datagram_total_len ;;
      let hdr :=
        setupIPHeaderForICMP (dg_hdr buf) ip_datagram_total_len src_ip dest_ip in
      write_within (20 + icmp_msg_len) ip_datagram_total_len ;;
      let ip_datagram :=
        {| dg_hdr := hdr; dg_data := firstn (Z.to_nat icmp_msg_len) msg |} in
      let next_hop_ip := gw rt_entry in
      let interface := interface rt_entry in
      sendIPDatagram (s) next_hop_ip interface ip_datagram None
        ip_datagram_total_len ;;
      emit Free
  end.

(** [sendIcmpMessage]: the source is the address of the first interface. *)
Definition sendIcmpMessage (sr : option sr_instance)
  (icmp_message : option (list Z)) (icmp_msg_len dest_ip : Z) : run unit :=
  assert (icmp_msg_len >=? MIN_ICMP_MSG_LEN K) ;;
  assert_ptr icmp_message ;;
  s <- assert_ptr sr ;;
  assert (negb (dest_ip =? 0)) ;;
  iface <- assert_ptr (hd_error (if_list s)) ;;
  sendIcmpMessageWithSrcIP sr icmp_message icmp_msg_len dest_ip (ip iface).

End Router.

(** ** Sample data for the examples *)

(** A second route to 10.0.1.0/24, through another gateway. *)
Definition rt_slash24_alt (host : endianness) : sr_rt :=
  {| dest := inet_addr host 10 0 1 0; gw := inet_addr host 10 0 1 254;
     mask := inet_addr host 255 255 255 0; interface := "eth3" |}.

Definition tie_table (host : endianness) : list sr_rt :=
  [rt_slash24 host; rt_slash8 host; rt_slash24_alt host].

(** ** Reading a trace *)

Definition is_transmit (ev : event) : bool :=
  match ev with
  | SendEthFrameContainingIPDatagram _ _ _ _ _ => true
  | EthSendIPDatagram _ _ _ _ => true
  | _ => false
  end.

Definition is_enqueue (ev : event) : bool :=
  match ev with
  | BufferIPDatagram _ _ _ _ => true
  | _ => false
  end.

(** The calls [sendIPDatagram] makes: a run that holds one has reached the
    delivery dispatch. *)
Definition is_dispatch (ev : event) : bool :=
  match ev with
  | ResolveMAC _ _ _ => true
  | SendEthFrameContainingIPDatagram _ _ _ _ _ => true
  | EthSendIPDatagram _ _ _ _ => true
  | BufferIPDatagram _ _ _ _ => true
  | HandleUndeliverableBufferedIPDatagram _ _ => true
  | _ => false
  end.

Definition is_malloc (ev : event) : bool :=
  match ev with
  | Malloc _ => true
  | _ => false
  end.

(** The datagram a call is handed, if it is handed one. *)
Definition event_datagram (ev : event) : option datagram :=
  match ev with
  | SendEthFrameContainingIPDatagram _ _ d _ _ => Some d
  | EthSendIPDatagram _ d _ _ => Some d
  | BufferIPDatagram _ d _ _ => Some d
  | IcmpReply _ d _ _ => Some d
  | _ => None
  end.

(** Every datagram that leaves in the trace is [d]. *)
Definition only_datagram (d : datagram) (t : list event) : Prop :=
  Forall (fun ev => event_datagram ev = None \/ event_datagram ev = Some d) t.

(** An ICMP time-exceeded message (RFC 792: protocol 1, type 11 in the
    first byte of the ICMP header). *)
Definition is_time_exceeded (d : datagram) : bool :=
  (ip_p (dg_hdr d) =? IPPROTO_ICMP) && (hd 0 (dg_data d) =? 11).

Definition time_exceeded_dispatched (t : list event) : bool :=
  existsb (fun ev =>
             match event_datagram ev with
             | Some d => is_time_exceeded d
             | None => false
             end) t.

Definition forward_attempted (t : list event) : bool := existsb is_dispatch t.

(** ** The three branches of [handleIPDatagram] *)

Inductive branch : Type := LocalDelivery | Forward | Expired.

(** When a datagram that passed validation belongs to a branch. *)
Definition branch_guard (sr : sr_instance) (h : ip_hdr) (b : branch) : Prop :=
  match b with
  | LocalDelivery => exists i, In i (if_list sr) /\ ip i = ip_dst h
  | Forward => (forall i, In i (if_list sr) -> ip i <> ip_dst h) /\ ip_ttl h <> 0
  | Expired => (forall i, In i (if_list sr) -> ip i <> ip_dst h) /\ ip_ttl h = 0
  end.

(** What the code runs in a branch. *)
Definition branch_body (host : endianness) (K : ip_defaults) (C : collaborators)
  (sr : sr_instance) (eth_frame : option (list Z)) (d : datagram) (len : Z)
  (b : branch) : run datagram :=
  match b with
  | LocalDelivery => processIPDatagramDestinedForMe K C sr eth_frame d len
  | Forward => forward host C sr eth_frame d len
  | Expired => ret d
  end.

(** The defaults fit the header fields they are stored in. *)
Definition ip_defaults_wf (K : ip_defaults) : Prop :=
  0 <= DEFAULT_IP_TOS K < 2 ^ 8 /\ 0 <= DEFAULT_IP_ID K < 2 ^ 16 /\
  0 <= DEFAULT_IP_FRAGMENT K < 2 ^ 16 /\ 0 <= DEFAULT_IP_TTL K < 2 ^ 8.

(** ** A concrete checksum and concrete collaborators, for the examples *)

(** Modelled from the spec: [csum], which ip.c calls and does not define;
    "the 16-bit one's-complement sum" over the bytes it is given, read as the
    host reads the 16-bit words, complemented. *)
Definition word16 (host : endianness) (b0 b1 : Z) : Z :=
  match host with
  | LittleEndian => b0 + b1 * 2 ^ 8
  | BigEndian => b0 * 2 ^ 8 + b1
  end.

Definition add16 (a b : Z) : Z := (a + b) mod 2 ^ 16 + (a + b) / 2 ^ 16.

Fixpoint sum16 (host : endianness) (bs : list Z) (acc : Z) : Z :=
  match bs with
  | b0 :: b1 :: rest => sum16 host rest (add16 acc (word16 host b0 b1))
  | [b0] => add16 acc (word16 host b0 0)
  | [] => acc
  end.

Definition csum_spec (host : endianness) (bs : list Z) : Z :=
  uint16 (2 ^ 16 - 1 - sum16 host bs 0).

Definition sample_defaults : ip_defaults :=
  {| DEFAULT_IP_TOS := 0; DEFAULT_IP_ID := 0; DEFAULT_IP_FRAGMENT := 0;
     DEFAULT_IP_TTL := 64; MIN_ICMP_MSG_LEN := 8; ICMP_REQUEST := 8 |}.

Definition sample_mac : list Z := [2; 0; 0; 0; 0; 1].

Definition zero_hdr : ip_hdr :=
  {| ip_hl := 0; ip_v := 0; ip_tos := 0; ip_len := 0; ip_id := 0; ip_off := 0;
     ip_ttl := 0; ip_p := 0; ip_sum := 0; ip_src := 0; ip_dst := 0 |}.

(** Collaborators whose address resolution always answers [status]. *)
Definition sample_collaborators (host : endianness) (status : resolve_status)
  : collaborators :=
  {| csum := csum_spec host;
     resolveMAC := fun _ _ _ => (status, sample_mac);
     sr_get_interface := fun sr n =>
       find (fun i => String.eqb (name i) n) (if_list sr);
     icmp_reply := fun _ _ d _ _ => ret (0, d);
     icmp_type := fun data => hd 0 data;
     malloc := fun _ => Some {| dg_hdr := zero_hdr; dg_data := [] |} |}.

Definition sample_router (host : endianness) : sr_instance :=
  {| if_list :=
       [ {| name := "eth0"; addr := [2; 0; 0; 0; 1; 0];
            ip := inet_addr host 192 168 0 1 |};
         {| name := "eth1"; addr := [2; 0; 0; 0; 1; 1];
            ip := inet_addr host 10 0 0 254 |};
         {| name := "eth2"; addr := [2; 0; 0; 0; 1; 2];
            ip := inet_addr host 10 0 1 254 |} ];
     routing_table := [rt_slash8 host; rt_slash24 host] |}.

(** The header stored with the checksum [csum_spec] computes for it. *)
Definition with_checksum (host : endianness) (h : ip_hdr) : ip_hdr :=
  set_ip_sum h (csum_spec host (hdr_window host (set_ip_sum h 0) [] (4 * ip_hl h))).

(** A 28-byte UDP datagram from 192.168.0.2 to 10.0.1.5 with the given
    time-to-live and a correct checksum. *)
Definition sample_datagram (host : endianness) (ttl : Z) : datagram :=
  {| dg_hdr :=
       with_checksum host
         {| ip_hl := 5; ip_v := 4; ip_tos := 0; ip_len := htons host 28;
            ip_id := 0; ip_off := 0; ip_ttl := ttl; ip_p := 17; ip_sum := 0;
            ip_src := inet_addr host 192 168 0 2;
            ip_dst := inet_addr host 10 0 1 5 |};
     dg_data := [0; 53; 0; 53; 0; 8; 0; 0] |}.

Definition sample_eth_hdr : list Z :=
  [2; 0; 0; 0; 1; 0; 2; 0; 0; 0; 9; 9; 8; 0].

(** The same router with an empty routing table. *)
Definition isolated_router (host : endianness) : sr_instance :=
  {| if_list := if_list (sample_router host); routing_table := [] |}.

(** An eight-byte ICMP message. *)
Definition sample_icmp_message : list Z := [0; 0; 0; 0; 0; 1; 0; 1].

(** ** Further readings of a trace *)

Definition is_resolve (ev : event) : bool :=
  match ev with
  | ResolveMAC _ _ _ => true
  | _ => false
  end.


(** Two headers that differ at most in time-to-live and checksum. *)
Definition same_but_ttl_sum (h h' : ip_hdr) : Prop :=
  set_ip_sum (set_ip_ttl h 0) 0 = set_ip_sum (set_ip_ttl h' 0) 0.

(** Every bit of the mask of [e] is a bit of the mask of [e']: [e'] is at
    least as specific as [e]. *)
Definition mask_within (host : endianness) (e e' : sr_rt) : Prop :=
  Z.land (ntohl host (mask e)) (ntohl host (mask e')) = ntohl host (mask e).

(** A default route, and a route to 10.0.0.0/24. *)
Definition rt_default (host : endianness) : sr_rt :=
  {| dest := inet_addr host 0 0 0 0; gw := inet_addr host 192 168 0 254;
     mask := 0; interface := "eth0" |}.

Definition rt_net24 (host : endianness) : sr_rt :=
  {| dest := inet_addr host 10 0 0 0; gw := inet_addr host 10 0 0 2;
     mask := inet_addr host 255 255 255 0; interface := "eth1" |}.

(** * Properties *)

(** ** Byte order *)

Lemma byte_of_nonneg (x i : Z) : 0 <= byte_of x i.
Proof. unfold byte_of. apply Z.mod_pos_bound. lia. Qed.

Lemma ntohl_nonneg (host : endianness) (x : Z) : 0 <= ntohl host x.
Proof.
  destruct host; simpl.
  - unfold swap32.
    pose proof (byte_of_nonneg x 0). pose proof (byte_of_nonneg x 1).
    pose proof (byte_of_nonneg x 2). pose proof (byte_of_nonneg x 3). lia.
  - unfold uint32. apply Z.mod_pos_bound. lia.
Qed.

Lemma masked_dest_host_ip_nonneg (host : endianness) (d : Z) (e : sr_rt) :
  0 <= masked_dest_host_ip host d e.
Proof.
  unfold masked_dest_host_ip. apply Z.land_nonneg. left. apply ntohl_nonneg.
Qed.

(** ** The lookup loop *)

Section LookupLoop.

Variable host : endianness.
Variable d : Z.

(** What the loop has done when it leaves [cur]: the bound only grows, it
    dominates every matching entry, and either nothing was selected or the
    selected entry is the last matching one that reaches the final bound. *)
Lemma lookup_loop_spec (cur : list sr_rt) :
  forall (pos : nat) (st : lookup_state),
    let st' := lookup_loop host d cur pos st in
    longest_prefix st <= longest_prefix st' /\
    (forall e, In e cur -> rt_matches host d e = true ->
               masked_dest_host_ip host d e <= longest_prefix st') /\
    ((st' = st /\
      forall e, In e cur -> rt_matches host d e = true ->
                masked_dest_host_ip host d e < longest_prefix st)
     \/
     exists j e,
       nth_error cur j = Some e /\ rt_matches host d e = true /\
       st' = {| longest_prefix := masked_dest_host_ip host d e;
                rt_entry_with_longest_prefix := Some ((pos + j)%nat, e) |} /\
       longest_prefix st <= masked_dest_host_ip host d e /\
       forall j' e', (j < j')%nat -> nth_error cur j' = Some e' ->
                     rt_matches host d e' = true ->
                     masked_dest_host_ip host d e' < masked_dest_host_ip host d e).
Proof.
  unfold rt_matches.
  induction cur as [|e next IH]; intros pos st; cbn [lookup_loop].
  - split; [lia|]. split; [intros e []|]. left. split; [reflexivity|intros e []].
  - match goal with
    | |- context [lookup_loop host d next (S pos) ?s] => set (st1 := s)
    end.
    destruct (IH (S pos) st1) as (Hmono & Hdom & Hsel).
    destruct ((masked_rt_dest_ip host e =? masked_dest_host_ip host d e)
              && (masked_dest_host_ip host d e >=? longest_prefix st)) eqn:Hc.
    + apply andb_prop in Hc. destruct Hc as [Hm Hge].
      assert (Hge' : longest_prefix st <= masked_dest_host_ip host d e)
        by (apply Z.geb_le in Hge; lia).
      subst st1. cbn [longest_prefix] in *.
      split; [lia|]. split.
      * intros e' [<-|Hin] He'; [lia|auto].
      * right. destruct Hsel as [[Heq Hlt]|(j & e2 & Hn & Hm2 & Heq & Hle & Hlast)].
        -- exists 0%nat, e. repeat split; auto.
           ++ rewrite Heq. f_equal. f_equal. f_equal. lia.
           ++ intros [|j'] e' Hj Hn' He'; [lia|].
              apply (Hlt e'); auto. eapply nth_error_In; eauto.
        -- exists (S j), e2. repeat split; auto.
           ++ rewrite Heq. f_equal. f_equal. f_equal. lia.
           ++ cbn [longest_prefix] in Hle. lia.
           ++ intros [|j'] e' Hj Hn' He'; [lia|].
              apply (Hlast j' e'); auto. lia.
    + subst st1.
      assert (Hnot : (masked_rt_dest_ip host e =? masked_dest_host_ip host d e) = true ->
                     masked_dest_host_ip host d e < longest_prefix st).
      { intros Hm. rewrite Hm in Hc. cbn in Hc.
        destruct (Z.geb_spec (masked_dest_host_ip host d e) (longest_prefix st));
          [discriminate|lia]. }
      split; [lia|]. split.
      * intros e' [<-|Hin] He'; [specialize (Hnot He'); lia|auto].
      * destruct Hsel as [[Heq Hlt]|(j & e2 & Hn & Hm2 & Heq & Hle & Hlast)].
        -- left. split; [assumption|]. intros e' [<-|Hin] He'; auto.
        -- right. exists (S j), e2. repeat split; auto.
           ++ rewrite Heq. f_equal. f_equal. f_equal. lia.
           ++ intros [|j'] e' Hj Hn' He'; [lia|].
              apply (Hlast j' e'); auto. lia.
Qed.

End LookupLoop.

(** The loop started as [lookupRoutingTable] starts it. *)
Lemma lookup_from_start (host : endianness) (sr : sr_instance) (d : Z) :
  (lookupRoutingTable host sr d = None /\
   forall e, In e (routing_table sr) -> rt_matches host d e = false)
  \/
  exists i e,
    lookupRoutingTable host sr d = Some (i, e) /\
    nth_error (routing_table sr) i = Some e /\
    rt_matches host d e = true /\
    (forall e', In e' (routing_table sr) -> rt_matches host d e' = true ->
                masked_dest_host_ip host d e' <= masked_dest_host_ip host d e) /\
    (forall j e', (i < j)%nat -> nth_error (routing_table sr) j = Some e' ->
                  rt_matches host d e' = true ->
                  masked_dest_host_ip host d e' < masked_dest_host_ip host d e).
Proof.
  unfold lookupRoutingTable.
  destruct (lookup_loop_spec host d (routing_table sr) 0%nat
              {| longest_prefix := 0; rt_entry_with_longest_prefix := None |})
    as (_ & Hdom & [[Heq Hlt]|(j & e & Hn & Hm & Heq & _ & Hlast)]).
  - left. rewrite Heq. split; [reflexivity|].
    intros e Hin. destruct (rt_matches host d e) eqn:He; [|reflexivity].
    specialize (Hlt e Hin He). cbn in Hlt.
    pose proof (masked_dest_host_ip_nonneg host d e). lia.
  - right. exists j, e. rewrite Heq in *. cbn in *. repeat split; auto.
Qed.

(** C1. [lookupRoutingTable] scans the whole table; an entry is a candidate
    exactly when its destination and the looked-up address agree under its
    mask, both taken in host byte order; the entry returned is a candidate
    whose masked address is maximal among all candidates, and nothing is
    returned exactly when the table has no candidate.  With 10.0.0.0/8 and
    10.0.1.0/24 in the table, in either order, 10.0.1.5 finds the /24 entry,
    10.0.2.5 the /8 entry and 192.168.1.1 nothing. *)
Theorem lookupRoutingTable_longest_prefix_match :
  forall (host : endianness) (sr : sr_instance) (dest_host_ip : Z),
    (forall e,
        rt_matches host dest_host_ip e = true <->
        Z.land (ntohl host (dest e)) (ntohl host (mask e)) =
        Z.land (ntohl host dest_host_ip) (ntohl host (mask e))) /\
    (lookupRoutingTable host sr dest_host_ip = None <->
     forall e, In e (routing_table sr) -> rt_matches host dest_host_ip e = false) /\
    (forall i e,
        lookupRoutingTable host sr dest_host_ip = Some (i, e) ->
        nth_error (routing_table sr) i = Some e /\
        rt_matches host dest_host_ip e = true /\
        forall e', In e' (routing_table sr) ->
                   rt_matches host dest_host_ip e' = true ->
                   masked_dest_host_ip host dest_host_ip e' <=
                   masked_dest_host_ip host dest_host_ip e) /\
    (forall t,
        t = [rt_slash8 host; rt_slash24 host] \/
        t = [rt_slash24 host; rt_slash8 host] ->
        option_map snd
          (lookupRoutingTable host (sr_of_table t) (inet_addr host 10 0 1 5))
        = Some (rt_slash24 host) /\
        option_map snd
          (lookupRoutingTable host (sr_of_table t) (inet_addr host 10 0 2 5))
        = Some (rt_slash8 host) /\
        lookupRoutingTable host (sr_of_table t) (inet_addr host 192 168 1 1)
        = None).
Proof.
  intros host sr d. split; [|split; [|split]].
  - intros e. unfold rt_matches, masked_rt_dest_ip, masked_dest_host_ip.
    apply Z.eqb_eq.
  - destruct (lookup_from_start host sr d)
      as [[Hnone Hall]|(i & e & Hsome & Hn & Hm & _)].
    + split; auto.
    + split.
      * intros Hnone. rewrite Hnone in Hsome. discriminate.
      * intros Hall. apply nth_error_In in Hn.
        rewrite (Hall e Hn) in Hm. discriminate.
  - intros i e Hres.
    destruct (lookup_from_start host sr d)
      as [[Hnone _]|(i' & e' & Hsome & Hn & Hm & Hmax & _)].
    + rewrite Hnone in Hres. discriminate.
    + rewrite Hsome in Hres. inversion Hres; subst. auto.
  - intros t [-> | ->]; destruct host; vm_compute; auto.
Qed.

(** C10. When several matching entries share the maximal masked address,
    [lookupRoutingTable] returns the last of them in scan order: the test
    against the best value so far is [>=], so a later entry with an equal
    value replaces an earlier one.  Stated for the entry at position [i]:
    if it matches, no matching entry has a larger masked address, and none
    with an equal one comes after it, then it is the entry returned. *)
Theorem lookupRoutingTable_returns_last_maximal :
  forall (host : endianness) (sr : sr_instance) (dest_host_ip : Z)
         (i : nat) (e : sr_rt),
    nth_error (routing_table sr) i = Some e ->
    rt_matches host dest_host_ip e = true ->
    (forall j e',
        nth_error (routing_table sr) j = Some e' ->
        rt_matches host dest_host_ip e' = true ->
        masked_dest_host_ip host dest_host_ip e' <=
        masked_dest_host_ip host dest_host_ip e /\
        (masked_dest_host_ip host dest_host_ip e' =
         masked_dest_host_ip host dest_host_ip e -> (j <= i)%nat)) ->
    lookupRoutingTable host sr dest_host_ip = Some (i, e).
Proof.
  intros host sr d i e Hn Hm Hbest.
  destruct (lookup_from_start host sr d)
    as [[_ Hall]|(j & e0 & Hsome & Hn0 & Hm0 & Hmax & Hlast)].
  - apply nth_error_In in Hn. rewrite (Hall e Hn) in Hm. discriminate.
  - rewrite Hsome.
    destruct (Hbest j e0 Hn0 Hm0) as [Hle Htie].
    pose proof (Hmax e (nth_error_In _ _ Hn) Hm) as Hge.
    assert (Hji : (j <= i)%nat) by (apply Htie; lia).
    destruct (Nat.eq_dec j i) as [->|Hne].
    + rewrite Hn in Hn0. inversion Hn0. reflexivity.
    + assert (Hlt : (j < i)%nat) by lia.
      specialize (Hlast i e Hlt Hn Hm). lia.
Qed.

(** A table with two routes to 10.0.1.0/24, first and last, and the /8
    route between them: the lookup of 10.0.1.5 returns the last one. *)
Lemma lookupRoutingTable_returns_last_maximal_witness :
  lookupRoutingTable LittleEndian (sr_of_table (tie_table LittleEndian))
    (inet_addr LittleEndian 10 0 1 5)
  = Some (2%nat, rt_slash24_alt LittleEndian).
Proof.
  apply lookupRoutingTable_returns_last_maximal.
  - reflexivity.
  - vm_compute. reflexivity.
  - intros j e' Hn Hm.
    destruct j as [|[|[|j]]]; cbn in Hn.
    + inversion Hn; subst e'. split; [vm_compute; discriminate|intros _; lia].
    + inversion Hn; subst e'. split; [vm_compute; discriminate|intros _; lia].
    + inversion Hn; subst e'. split; [vm_compute; discriminate|intros _; lia].
    + destruct j; discriminate.
Defined.

(** ** Headers in memory *)

Lemma ip_bytes_length (host : endianness) (h : ip_hdr) :
  List.length (ip_bytes host h) = 20%nat.
Proof. destruct host; reflexivity. Qed.

(** A window that stays inside the header does not depend on what follows
    it in memory. *)
Lemma hdr_window_inside (host : endianness) (h : ip_hdr) (after : list Z) (len : Z) :
  len <= 20 -> hdr_window host h after len = hdr_window host h [] len.
Proof.
  intros Hlen. unfold hdr_window.
  rewrite app_nil_r, firstn_app, ip_bytes_length.
  replace (Z.to_nat len - 20)%nat with 0%nat by lia.
  cbn [firstn]. apply app_nil_r.
Qed.

Lemma uint16_small (x : Z) : 0 <= x < 2 ^ 16 -> uint16 x = x.
Proof. intros H. unfold uint16. apply Z.mod_small. exact H. Qed.

Lemma uint8_small (x : Z) : 0 <= x < 2 ^ 8 -> uint8 x = x.
Proof. intros H. unfold uint8. apply Z.mod_small. exact H. Qed.

Lemma uint32_small (x : Z) : 0 <= x < 2 ^ 32 -> uint32 x = x.
Proof. intros H. unfold uint32. apply Z.mod_small. exact H. Qed.

Lemma swap16_involutive (x : Z) : 0 <= x < 2 ^ 16 -> swap16 (swap16 x) = x.
Proof.
  intros H. unfold swap16, byte_of.
  change (2 ^ (8 * 0)) with 1. change (2 ^ (8 * 1)) with 256.
  change (2 ^ 8) with 256. change (2 ^ 16) with 65536 in H.
  rewrite !Z.div_1_r.
  Z.div_mod_to_equations. lia.
Qed.

Lemma ntohs_htons (host : endianness) (x : Z) :
  0 <= x < 2 ^ 16 -> ntohs host (htons host x) = x.
Proof.
  intros H. unfold htons. destruct host; cbn [ntohs].
  - apply swap16_involutive. exact H.
  - rewrite !uint16_small; auto. rewrite uint16_small; auto.
Qed.

(** ** The validator *)

(** The four tests of the validator, in the order the code makes them. *)
Lemma should_drop_tests (host : endianness) (C : collaborators) (h : ip_hdr) :
  ipDatagramShouldBeDropped host C h = true <->
  ntohs host (ip_len h) < 20 \/
  ip_v h <> 4 \/
  ip_hl h > 5 \/
  ip_sum h <> csum C (hdr_window host (set_ip_sum h 0) [] (4 * ip_hl h)).
Proof.
  unfold ipDatagramShouldBeDropped.
  destruct (Z.ltb_spec (ntohs host (ip_len h)) 20) as [Hlen|Hlen].
  { split; auto. }
  destruct (Z.eqb_spec (ip_v h) 4) as [Hv|Hv]; cbn [negb].
  2:{ split; auto. }
  rewrite Z.gtb_ltb.
  destruct (Z.ltb_spec 5 (ip_hl h)) as [Hhl|Hhl].
  { split; auto. intros _. right. right. left. lia. }
  cbn [set_ip_sum ip_hl].
  destruct (Z.eqb_spec (ip_sum h)
              (csum C (hdr_window host (set_ip_sum h 0) [] (4 * ip_hl h))))
    as [Hs|Hs]; cbn [negb].
  - split; [discriminate|]. intros [H|[H|[H|H]]]; try lia; contradiction.
  - split; auto.
Qed.

(** C2. [ipDatagramShouldBeDropped] answers true exactly when the total
    length, read in host byte order, is below 20, or the version is not 4,
    or the header length is above 5, or the stored checksum differs from
    [csum] over the [4 * ip_hl] bytes of the header with the checksum field
    zeroed.  The header is passed by value: [handleIPDatagram] goes on with
    the very buffer it was given, and a dropped datagram leaves no event and
    an unchanged buffer. *)
Theorem ipDatagramShouldBeDropped_iff :
  forall (host : endianness) (K : ip_defaults) (C : collaborators)
         (sr : sr_instance) (eth_frame : option (list Z)) (d : datagram)
         (len : Z),
    (ipDatagramShouldBeDropped host C (dg_hdr d) = true <->
     ntohs host (ip_len (dg_hdr d)) < 20 \/
     ip_v (dg_hdr d) <> 4 \/
     ip_hl (dg_hdr d) > 5 \/
     ip_sum (dg_hdr d) <>
     csum C (hdr_window host (set_ip_sum (dg_hdr d) 0) []
               (4 * ip_hl (dg_hdr d)))) /\
    handleIPDatagram host K C sr eth_frame d len =
    (if ipDatagramShouldBeDropped host C (dg_hdr d) then ([], Returned d)
     else if ipDatagramDestinedForMe sr (ip_dst (dg_hdr d)) then
       processIPDatagramDestinedForMe K C sr eth_frame d len
     else if negb (ip_ttl (dg_hdr d) =? 0) then
       forward host C sr eth_frame d len
     else ([], Returned d)).
Proof.
  intros host K C sr eth_frame d len. split; [|reflexivity].
  apply should_drop_tests.
Qed.

(** ** The delivery dispatcher *)

Section Dispatcher.

Variable host : endianness.
Variable C : collaborators.

(** [ip_dec_ttl] on a header whose time-to-live is not zero. *)
Lemma ip_dec_ttl_returns (d : datagram) :
  ip_ttl (dg_hdr d) <> 0 ->
  exists d',
    ip_dec_ttl host C d = ([], Returned d') /\
    dg_data d' = dg_data d /\
    ip_ttl (dg_hdr d') = uint8 (ip_ttl (dg_hdr d) - 1) /\
    ip_sum (dg_hdr d') =
      uint16 (csum C (hdr_window host (set_ip_sum (dg_hdr d') 0) (dg_data d')
                        (4 * ip_hl (dg_hdr d')))) /\
    ip_hl (dg_hdr d') = ip_hl (dg_hdr d) /\
    ip_v (dg_hdr d') = ip_v (dg_hdr d) /\
    ip_len (dg_hdr d') = ip_len (dg_hdr d) /\
    ip_p (dg_hdr d') = ip_p (dg_hdr d) /\
    ip_src (dg_hdr d') = ip_src (dg_hdr d) /\
    ip_dst (dg_hdr d') = ip_dst (dg_hdr d).
Proof.
  intros Httl. unfold ip_dec_ttl.
  destruct (Z.eqb_spec (ip_ttl (dg_hdr d)) 0) as [H0|_]; [contradiction|].
  cbn [negb assert bind ret app]. eexists. split; [reflexivity|].
  cbn. repeat split; reflexivity.
Qed.

Lemma ip_dec_ttl_aborts (d : datagram) :
  ip_ttl (dg_hdr d) = 0 -> ip_dec_ttl host C d = ([], Aborted).
Proof.
  intros Httl. unfold ip_dec_ttl. rewrite Httl. reflexivity.
Qed.

(** The run of [sendIPDatagram] once the header has been updated: one
    resolution request, then what its answer selects, always on the updated
    buffer. *)
Lemma sendIPDatagram_run (sr : sr_instance) (next_hop_ip : Z)
  (interface : string) (d d' : datagram) (eth_frame : option (list Z))
  (len : Z) :
  ip_dec_ttl host C d = ([], Returned d') ->
  let iface := sr_get_interface C sr interface in
  let status := fst (resolveMAC C sr next_hop_ip iface) in
  let mac := snd (resolveMAC C sr next_hop_ip iface) in
  sendIPDatagram host C sr next_hop_ip interface d eth_frame len =
  (ResolveMAC next_hop_ip iface status ::
   match status with
   | ARP_RESOLVE_SUCCESS =>
       [match eth_frame with
        | Some eth_hdr => SendEthFrameContainingIPDatagram mac eth_hdr d' iface len
        | None => EthSendIPDatagram mac d' iface len
        end]
   | ARP_REQUEST_SENT =>
       [BufferIPDatagram next_hop_ip d' interface len;
        Printf ("ip packet buffered" ++ nl)]
   | ARP_RESOLVE_FAIL =>
       [HandleUndeliverableBufferedIPDatagram next_hop_ip iface]
   | ARP_OTHER _ => []
   end,
   Returned d').
Proof.
  intros Hdec. unfold sendIPDatagram. rewrite Hdec. cbn [bind app].
  destruct (resolveMAC C sr next_hop_ip (sr_get_interface C sr interface))
    as [status mac].
  cbn [fst snd]. destruct status, eth_frame; reflexivity.
Qed.


(** What a dispatch that got past [ip_dec_ttl] leaves in the trace: it
    starts with the resolution request, hands only the updated buffer on,
    and allocates nothing. *)
Lemma sendIPDatagram_trace (sr : sr_instance) (next_hop_ip : Z)
  (interface : string) (d d' : datagram) (eth_frame : option (list Z))
  (len : Z) :
  ip_dec_ttl host C d = ([], Returned d') ->
  let r := sendIPDatagram host C sr next_hop_ip interface d eth_frame len in
  result r = Returned d' /\
  only_datagram d' (trace r) /\
  existsb is_malloc (trace r) = false /\
  forward_attempted (trace r) = true.
Proof.
  intros Hdec r. subst r.
  rewrite (sendIPDatagram_run sr next_hop_ip interface d d' eth_frame len Hdec).
  unfold only_datagram, forward_attempted, result, trace. cbn [fst snd].
  destruct (fst (resolveMAC C sr next_hop_ip (sr_get_interface C sr interface)));
    destruct eth_frame; cbn; repeat split;
    repeat (constructor; cbn; auto).
Qed.

End Dispatcher.

(** C6. Handed a header whose time-to-live is above zero, the first step
    of the dispatcher, [ip_dec_ttl], leaves a header whose time-to-live is
    the old one minus 1 and whose checksum field is [csum] over the modified
    header (the [4 * ip_hl] bytes, checksum field zeroed); nothing else in
    the buffer changes.  The checksum re-validates: a header that passed the
    length, version and header-length tests passes the whole validator after
    the step.  Resolution and transmission see this buffer, so a datagram
    that arrives with time-to-live 5 goes on with 4. *)
Theorem ip_dec_ttl_decrements_and_recomputes :
  forall (host : endianness) (C : collaborators) (d : datagram),
    (forall bs, 0 <= csum C bs < 2 ^ 16) ->
    0 < ip_ttl (dg_hdr d) < 2 ^ 8 ->
    exists d',
      ip_dec_ttl host C d = ([], Returned d') /\
      ip_ttl (dg_hdr d') = ip_ttl (dg_hdr d) - 1 /\
      (ip_ttl (dg_hdr d) = 5 -> ip_ttl (dg_hdr d') = 4) /\
      ip_sum (dg_hdr d') =
        csum C (hdr_window host (set_ip_sum (dg_hdr d') 0) (dg_data d')
                  (4 * ip_hl (dg_hdr d'))) /\
      dg_data d' = dg_data d /\
      set_ip_sum (set_ip_ttl (dg_hdr d') 0) 0 =
        set_ip_sum (set_ip_ttl (dg_hdr d) 0) 0 /\
      (ntohs host (ip_len (dg_hdr d)) >= 20 -> ip_v (dg_hdr d) = 4 ->
       ip_hl (dg_hdr d) <= 5 ->
       ipDatagramShouldBeDropped host C (dg_hdr d') = false) /\
      (forall sr next_hop_ip interface eth_frame len,
          let r := sendIPDatagram host C sr next_hop_ip interface d eth_frame len in
          result r = Returned d' /\ only_datagram d' (trace r)).
Proof.
  intros host C d Hcs Httl.
  destruct (ip_dec_ttl_returns host C d) as (d' & Hrun & Hdata & Ht & Hs & Hrest);
    [lia|].
  exists d'. rewrite uint8_small in Ht by lia.
  rewrite uint16_small in Hs by apply Hcs.
  split; [exact Hrun|]. split; [exact Ht|]. split; [lia|].
  split; [exact Hs|]. split; [exact Hdata|]. split.
  { unfold ip_dec_ttl in Hrun.
    destruct (Z.eqb_spec (ip_ttl (dg_hdr d)) 0) as [H0|_]; [lia|].
    cbn [negb assert bind ret app] in Hrun. inversion Hrun. reflexivity. }
  split.
  - intros Hlen Hv Hhl.
    destruct Hrest as (Ehl & Ev & Elen & _).
    destruct (ipDatagramShouldBeDropped host C (dg_hdr d')) eqn:Hdrop;
      [|reflexivity].
    apply should_drop_tests in Hdrop.
    rewrite Elen, Ev, Ehl in Hdrop.
    destruct Hdrop as [H|[H|[H|H]]]; try lia. exfalso. apply H.
    rewrite Hs, Ehl. f_equal. apply hdr_window_inside. lia.
  - intros sr nh ifn frame len r.
    destruct (sendIPDatagram_trace host C sr nh ifn d d' frame len Hrun)
      as (Hres & Honly & _).
    split; assumption.
Qed.

Lemma csum_spec_range (host : endianness) (bs : list Z) :
  0 <= csum_spec host bs < 2 ^ 16.
Proof. unfold csum_spec, uint16. apply Z.mod_pos_bound. lia. Qed.

(** A datagram that arrives with time-to-live 5 leaves [ip_dec_ttl] with 4
    and passes the validator again. *)
Lemma ip_dec_ttl_decrements_and_recomputes_witness :
  exists d',
    ip_dec_ttl LittleEndian (sample_collaborators LittleEndian ARP_RESOLVE_SUCCESS)
      (sample_datagram LittleEndian 5) = ([], Returned d') /\
    ip_ttl (dg_hdr d') = 4 /\
    ipDatagramShouldBeDropped LittleEndian
      (sample_collaborators LittleEndian ARP_RESOLVE_SUCCESS) (dg_hdr d') = false.
Proof.
  destruct (ip_dec_ttl_decrements_and_recomputes LittleEndian
              (sample_collaborators LittleEndian ARP_RESOLVE_SUCCESS)
              (sample_datagram LittleEndian 5))
    as (d' & Hrun & _ & H4 & _ & _ & _ & Hvalid & _).
  - intros bs. apply csum_spec_range.
  - vm_compute. split; reflexivity.
  - exists d'. split; [exact Hrun|]. split.
    + apply H4. reflexivity.
    + apply Hvalid; vm_compute; [discriminate|reflexivity|discriminate].
Defined.

(** C9. A dispatch whose address resolution answers [ARP_REQUEST_SENT]
    makes, after the resolution request, exactly one [bufferIPDatagram] call,
    keyed by the next hop the request was for, and no transmit call, and
    returns.  Resolution is reached when the time-to-live handed in is not
    zero; the buffer enqueued is the one [ip_dec_ttl] left. *)
Theorem sendIPDatagram_pending_enqueues_once :
  forall (host : endianness) (C : collaborators) (sr : sr_instance)
         (next_hop_ip : Z) (interface : string) (d : datagram)
         (eth_frame : option (list Z)) (len : Z),
    ip_ttl (dg_hdr d) <> 0 ->
    fst (resolveMAC C sr next_hop_ip (sr_get_interface C sr interface))
    = ARP_REQUEST_SENT ->
    let r := sendIPDatagram host C sr next_hop_ip interface d eth_frame len in
    exists d',
      ip_dec_ttl host C d = ([], Returned d') /\
      r = ([ResolveMAC next_hop_ip (sr_get_interface C sr interface)
              ARP_REQUEST_SENT;
            BufferIPDatagram next_hop_ip d' interface len;
            Printf ("ip packet buffered" ++ nl)],
           Returned d') /\
      filter is_transmit (trace r) = [] /\
      filter is_enqueue (trace r) =
        [BufferIPDatagram next_hop_ip d' interface len].
Proof.
  intros host C sr nh ifn d frame len Httl Hst r. subst r.
  destruct (ip_dec_ttl_returns host C d Httl) as (d' & Hrun & _).
  exists d'. split; [exact Hrun|].
  rewrite (sendIPDatagram_run host C sr nh ifn d d' frame len Hrun).
  rewrite Hst. repeat split; reflexivity.
Qed.

(** The forwarded sample datagram, with resolution pending: one enqueue for
    the gateway of the /24 route, no transmit. *)
Lemma sendIPDatagram_pending_enqueues_once_witness :
  exists d',
    filter is_transmit
      (trace (sendIPDatagram LittleEndian
                (sample_collaborators LittleEndian ARP_REQUEST_SENT)
                (sample_router LittleEndian) (inet_addr LittleEndian 10 0 1 1)
                "eth2" (sample_datagram LittleEndian 5) (Some sample_eth_hdr) 28))
    = [] /\
    filter is_enqueue
      (trace (sendIPDatagram LittleEndian
                (sample_collaborators LittleEndian ARP_REQUEST_SENT)
                (sample_router LittleEndian) (inet_addr LittleEndian 10 0 1 1)
                "eth2" (sample_datagram LittleEndian 5) (Some sample_eth_hdr) 28))
    = [BufferIPDatagram (inet_addr LittleEndian 10 0 1 1) d' "eth2" 28].
Proof.
  destruct (sendIPDatagram_pending_enqueues_once LittleEndian
              (sample_collaborators LittleEndian ARP_REQUEST_SENT)
              (sample_router LittleEndian) (inet_addr LittleEndian 10 0 1 1)
              "eth2" (sample_datagram LittleEndian 5) (Some sample_eth_hdr) 28)
    as (d' & _ & _ & Htx & Hq).
  - vm_compute. discriminate.
  - reflexivity.
  - exists d'. split; assumption.
Defined.

(** ** The forwarding decision *)

Lemma destined_loop_true (ifaces : list sr_if) (dest_host_ip : Z) :
  destined_loop ifaces dest_host_ip = true <->
  exists i, In i ifaces /\ ip i = dest_host_ip.
Proof.
  induction ifaces as [|i next IH]; cbn [destined_loop].
  - split; [discriminate|]. intros (i & [] & _).
  - destruct (Z.eqb_spec (ip i) dest_host_ip) as [Heq|Hne].
    + split; auto. intros _. exists i. split; [left; reflexivity|exact Heq].
    + rewrite IH. split.
      * intros (j & Hin & Hj). exists j. split; [right; exact Hin|exact Hj].
      * intros (j & [<-|Hin] & Hj); [contradiction|]. exists j. auto.
Qed.

Lemma destined_loop_false (ifaces : list sr_if) (dest_host_ip : Z) :
  destined_loop ifaces dest_host_ip = false <->
  forall i, In i ifaces -> ip i <> dest_host_ip.
Proof.
  split.
  - intros Hf i Hin Heq.
    assert (Ht : destined_loop ifaces dest_host_ip = true)
      by (apply destined_loop_true; exists i; auto).
    congruence.
  - intros Hall. destruct (destined_loop ifaces dest_host_ip) eqn:Hd; [|reflexivity].
    apply destined_loop_true in Hd. destruct Hd as (i & Hin & Heq).
    exfalso. exact (Hall i Hin Heq).
Qed.

(** [handleIPDatagram] on a header that passed validation, by the two tests
    it makes. *)
Lemma handleIPDatagram_valid (host : endianness) (K : ip_defaults)
  (C : collaborators) (sr : sr_instance) (eth_frame : option (list Z))
  (d : datagram) (len : Z) :
  ipDatagramShouldBeDropped host C (dg_hdr d) = false ->
  handleIPDatagram host K C sr eth_frame d len =
  if ipDatagramDestinedForMe sr (ip_dst (dg_hdr d)) then
    processIPDatagramDestinedForMe K C sr eth_frame d len
  else if ip_ttl (dg_hdr d) =? 0 then ret d
  else forward host C sr eth_frame d len.
Proof.
  intros Hvalid. unfold handleIPDatagram. rewrite Hvalid.
  destruct (ipDatagramDestinedForMe sr (ip_dst (dg_hdr d))); [reflexivity|].
  destruct (ip_ttl (dg_hdr d) =? 0); reflexivity.
Qed.

(** A datagram for another host with a time-to-live other than zero goes to
    [forward], which dispatches it on the route found or does nothing. *)
Lemma handleIPDatagram_forwards (host : endianness) (K : ip_defaults)
  (C : collaborators) (sr : sr_instance) (eth_frame : option (list Z))
  (d : datagram) (len : Z) :
  ipDatagramShouldBeDropped host C (dg_hdr d) = false ->
  (forall i, In i (if_list sr) -> ip i <> ip_dst (dg_hdr d)) ->
  ip_ttl (dg_hdr d) <> 0 ->
  let r := handleIPDatagram host K C sr eth_frame d len in
  r = forward host C sr eth_frame d len /\
  (forall pos e,
      lookupRoutingTable host sr (ip_dst (dg_hdr d)) = Some (pos, e) ->
      r = sendIPDatagram host C sr (gw e) (interface e) d eth_frame len /\
      exists d',
        ip_dec_ttl host C d = ([], Returned d') /\
        result r = Returned d' /\
        ip_ttl (dg_hdr d') = uint8 (ip_ttl (dg_hdr d) - 1) /\
        only_datagram d' (trace r) /\
        existsb is_malloc (trace r) = false /\
        forward_attempted (trace r) = true) /\
  (lookupRoutingTable host sr (ip_dst (dg_hdr d)) = None ->
   r = ([], Returned d)).
Proof.
  intros Hvalid Hother Httl r.
  assert (Hr : r = forward host C sr eth_frame d len).
  { subst r. rewrite (handleIPDatagram_valid host K C sr eth_frame d len Hvalid).
    unfold ipDatagramDestinedForMe.
    rewrite (proj2 (destined_loop_false (if_list sr) (ip_dst (dg_hdr d))) Hother).
    destruct (Z.eqb_spec (ip_ttl (dg_hdr d)) 0); [contradiction|reflexivity]. }
  split; [exact Hr|]. split.
  - intros pos e Hlook.
    assert (Hs : r = sendIPDatagram host C sr (gw e) (interface e) d eth_frame len).
    { rewrite Hr. unfold forward. rewrite Hlook. reflexivity. }
    split; [exact Hs|].
    destruct (ip_dec_ttl_returns host C d Httl) as (d' & Hrun & _ & Ht & _).
    exists d'. rewrite Hs.
    destruct (sendIPDatagram_trace host C sr (gw e) (interface e) d d'
                eth_frame len Hrun) as (Hres & Honly & Hmalloc & Hfwd).
    repeat split; assumption.
  - intros Hlook. rewrite Hr. unfold forward. rewrite Hlook. reflexivity.
Qed.

(** C3. A datagram that passed validation takes the local-delivery branch
    when its destination is the address of one of the router's interfaces,
    whatever its time-to-live; otherwise the forward branch when its
    time-to-live is not zero; otherwise the expired branch.  It belongs to
    exactly one of the three, and [handleIPDatagram] runs that branch. *)
Theorem handleIPDatagram_classifies :
  forall (host : endianness) (K : ip_defaults) (C : collaborators)
         (sr : sr_instance) (eth_frame : option (list Z)) (d : datagram)
         (len : Z),
    ipDatagramShouldBeDropped host C (dg_hdr d) = false ->
    (forall b,
        branch_guard sr (dg_hdr d) b ->
        handleIPDatagram host K C sr eth_frame d len =
        branch_body host K C sr eth_frame d len b) /\
    (exists b,
        branch_guard sr (dg_hdr d) b /\
        forall b', branch_guard sr (dg_hdr d) b' -> b' = b) /\
    (ipDatagramDestinedForMe sr (ip_dst (dg_hdr d)) = true <->
     branch_guard sr (dg_hdr d) LocalDelivery).
Proof.
  intros host K C sr eth_frame d len Hvalid.
  pose proof (destined_loop_true (if_list sr) (ip_dst (dg_hdr d))) as Ht.
  pose proof (destined_loop_false (if_list sr) (ip_dst (dg_hdr d))) as Hf.
  split; [|split].
  - intros b Hb.
    rewrite (handleIPDatagram_valid host K C sr eth_frame d len Hvalid).
    unfold ipDatagramDestinedForMe.
    destruct b; cbn [branch_guard branch_body] in *.
    + rewrite (proj2 Ht Hb). reflexivity.
    + destruct Hb as [Hother Httl]. rewrite (proj2 Hf Hother).
      destruct (Z.eqb_spec (ip_ttl (dg_hdr d)) 0); [contradiction|reflexivity].
    + destruct Hb as [Hother Httl]. rewrite (proj2 Hf Hother).
      rewrite Httl. reflexivity.
  - destruct (destined_loop (if_list sr) (ip_dst (dg_hdr d))) eqn:Hd.
    + exists LocalDelivery. split; [apply Ht; reflexivity|].
      intros [] Hb'; cbn [branch_guard] in Hb'; [reflexivity| |];
        destruct Hb' as [Hother _]; apply Hf in Hother; discriminate.
    + destruct (Z.eq_dec (ip_ttl (dg_hdr d)) 0) as [H0|Hn0].
      * exists Expired. split; [split; [apply Hf; reflexivity|exact H0]|].
        intros [] Hb'; cbn [branch_guard] in Hb'; [| |reflexivity].
        -- apply Ht in Hb'. discriminate.
        -- destruct Hb' as [_ Hn]. contradiction.
      * exists Forward. split; [split; [apply Hf; reflexivity|exact Hn0]|].
        intros [] Hb'; cbn [branch_guard] in Hb'; [|reflexivity|].
        -- apply Ht in Hb'. discriminate.
        -- destruct Hb' as [_ Hn]. contradiction.
  - unfold ipDatagramDestinedForMe. cbn [branch_guard]. exact Ht.
Qed.

(** The sample datagram with time-to-live 5 is valid and takes the forward
    branch on the sample router. *)
Lemma handleIPDatagram_classifies_witness :
  handleIPDatagram LittleEndian sample_defaults
    (sample_collaborators LittleEndian ARP_RESOLVE_SUCCESS)
    (sample_router LittleEndian) (Some sample_eth_hdr)
    (sample_datagram LittleEndian 5) 28
  = forward LittleEndian (sample_collaborators LittleEndian ARP_RESOLVE_SUCCESS)
      (sample_router LittleEndian) (Some sample_eth_hdr)
      (sample_datagram LittleEndian 5) 28.
Proof.
  apply (proj1 (handleIPDatagram_classifies LittleEndian sample_defaults
                  (sample_collaborators LittleEndian ARP_RESOLVE_SUCCESS)
                  (sample_router LittleEndian) (Some sample_eth_hdr)
                  (sample_datagram LittleEndian 5) 28 eq_refl) Forward).
  split.
  - intros i [<-|[<-|[<-|[]]]]; vm_compute; discriminate.
  - vm_compute. discriminate.
Defined.

(** [ip_dec_ttl] touches the time-to-live and the checksum only. *)
Lemma ip_dec_ttl_frame (host : endianness) (C : collaborators) (d d' : datagram) :
  ip_dec_ttl host C d = ([], Returned d') ->
  dg_data d' = dg_data d /\ same_but_ttl_sum (dg_hdr d) (dg_hdr d').
Proof.
  unfold ip_dec_ttl, same_but_ttl_sum.
  destruct (negb (ip_ttl (dg_hdr d) =? 0)); cbn [assert bind ret app];
    intros H; inversion H. split; reflexivity.
Qed.

(** What a run of [ip_dec_ttl] that returned has stored. *)
Lemma ip_dec_ttl_stored (host : endianness) (C : collaborators) (d d' : datagram) :
  ip_dec_ttl host C d = ([], Returned d') ->
  ip_ttl (dg_hdr d) <> 0 /\
  ip_ttl (dg_hdr d') = uint8 (ip_ttl (dg_hdr d) - 1) /\
  ip_sum (dg_hdr d') =
    uint16 (csum C (hdr_window host (set_ip_sum (dg_hdr d') 0) (dg_data d')
                      (4 * ip_hl (dg_hdr d')))) /\
  ip_p (dg_hdr d') = ip_p (dg_hdr d).
Proof.
  intros Hrun.
  destruct (Z.eq_dec (ip_ttl (dg_hdr d)) 0) as [H0|Hn0].
  { rewrite (ip_dec_ttl_aborts host C d H0) in Hrun. discriminate. }
  destruct (ip_dec_ttl_returns host C d Hn0)
    as (d2 & Hrun2 & _ & Ht & Hs & _ & _ & _ & Hp & _).
  rewrite Hrun in Hrun2. inversion Hrun2; subst d2. auto.
Qed.

(** When every datagram that leaves is [d], a time-exceeded message leaves
    only if [d] is one. *)
Lemma only_datagram_time_exceeded (d : datagram) (t : list event) :
  only_datagram d t ->
  is_time_exceeded d = false ->
  time_exceeded_dispatched t = false.
Proof.
  unfold only_datagram, time_exceeded_dispatched. intros Honly Hd.
  induction Honly as [|ev t [Hev|Hev] _ IH]; cbn [existsb].
  - reflexivity.
  - rewrite Hev, IH. reflexivity.
  - rewrite Hev, Hd, IH. reflexivity.
Qed.

(** C4, as the code has it.  A valid datagram for another host whose
    time-to-live is 1 is not treated as expired: the test is [ip_ttl != 0],
    so [handleIPDatagram] runs [forward], which looks up a route.  With a
    route, the datagram goes to [sendIPDatagram], which sets its time-to-live
    to 0 and stores the recomputed checksum before it asks for the address of
    the route's gateway.  Every datagram handed on after that is the
    received one, changed in time-to-live and checksum only, and nothing is
    allocated: the router sends no time-exceeded message of its own, and one
    leaves only when the received datagram is one. *)
Theorem handleIPDatagram_ttl1_is_forwarded :
  forall (host : endianness) (K : ip_defaults) (C : collaborators)
         (sr : sr_instance) (eth_frame : option (list Z)) (d : datagram)
         (len : Z),
    (forall bs, 0 <= csum C bs < 2 ^ 16) ->
    ipDatagramShouldBeDropped host C (dg_hdr d) = false ->
    (forall i, In i (if_list sr) -> ip i <> ip_dst (dg_hdr d)) ->
    ip_ttl (dg_hdr d) = 1 ->
    let r := handleIPDatagram host K C sr eth_frame d len in
    r = forward host C sr eth_frame d len /\
    (forall pos e,
        lookupRoutingTable host sr (ip_dst (dg_hdr d)) = Some (pos, e) ->
        r = sendIPDatagram host C sr (gw e) (interface e) d eth_frame len /\
        exists d',
          ip_dec_ttl host C d = ([], Returned d') /\
          result r = Returned d' /\
          ip_ttl (dg_hdr d') = 0 /\
          ip_sum (dg_hdr d') =
            csum C (hdr_window host (set_ip_sum (dg_hdr d') 0) (dg_data d')
                      (4 * ip_hl (dg_hdr d'))) /\
          dg_data d' = dg_data d /\
          same_but_ttl_sum (dg_hdr d) (dg_hdr d') /\
          filter is_resolve (trace r) =
            [let out := sr_get_interface C sr (interface e) in
             ResolveMAC (gw e) out (fst (resolveMAC C sr (gw e) out))] /\
          forward_attempted (trace r) = true /\
          only_datagram d' (trace r) /\
          existsb is_malloc (trace r) = false /\
          (is_time_exceeded d = false ->
           time_exceeded_dispatched (trace r) = false)).
Proof.
  intros host K C sr eth_frame d len Hcs Hvalid Hother Httl r.
  destruct (handleIPDatagram_forwards host K C sr eth_frame d len Hvalid Hother)
    as (Hfwd & Hroute & _); [lia|].
  fold r in Hfwd, Hroute.
  split; [exact Hfwd|].
  intros pos e Hlook.
  destruct (Hroute pos e Hlook)
    as (Hsend & d' & Hrun & Hres & _ & Honly & Hmalloc & Hatt).
  split; [exact Hsend|]. exists d'.
  destruct (ip_dec_ttl_stored host C d d' Hrun) as (_ & Ht & Hs & Hp).
  destruct (ip_dec_ttl_frame host C d d' Hrun) as (Hdata & Hsame).
  rewrite Httl in Ht. rewrite uint16_small in Hs by apply Hcs.
  split; [exact Hrun|]. split; [exact Hres|]. split; [exact Ht|].
  split; [exact Hs|]. split; [exact Hdata|]. split; [exact Hsame|].
  split.
  { rewrite Hsend.
    rewrite (sendIPDatagram_run host C sr (gw e) (interface e) d d' eth_frame
               len Hrun).
    unfold trace. cbn [fst].
    destruct (fst (resolveMAC C sr (gw e) (sr_get_interface C sr (interface e))));
      destruct eth_frame; reflexivity. }
  split; [exact Hatt|]. split; [exact Honly|]. split; [exact Hmalloc|].
  intros Hnot. apply (only_datagram_time_exceeded d' _ Honly).
  unfold is_time_exceeded in *. rewrite Hp, Hdata. exact Hnot.
Qed.

(** The sample datagram with time-to-live 1, on the sample router: it is
    handed to the dispatcher and leaves with time-to-live 0. *)
Lemma handleIPDatagram_ttl1_is_forwarded_witness :
  exists d',
    result (handleIPDatagram LittleEndian sample_defaults
              (sample_collaborators LittleEndian ARP_RESOLVE_SUCCESS)
              (sample_router LittleEndian) (Some sample_eth_hdr)
              (sample_datagram LittleEndian 1) 28) = Returned d' /\
    ip_ttl (dg_hdr d') = 0 /\
    forward_attempted
      (trace (handleIPDatagram LittleEndian sample_defaults
                (sample_collaborators LittleEndian ARP_RESOLVE_SUCCESS)
                (sample_router LittleEndian) (Some sample_eth_hdr)
                (sample_datagram LittleEndian 1) 28)) = true.
Proof.
  destruct (handleIPDatagram_ttl1_is_forwarded LittleEndian sample_defaults
              (sample_collaborators LittleEndian ARP_RESOLVE_SUCCESS)
              (sample_router LittleEndian) (Some sample_eth_hdr)
              (sample_datagram LittleEndian 1) 28)
    as (_ & Hroute).
  - intros bs. apply csum_spec_range.
  - vm_compute. reflexivity.
  - intros i [<-|[<-|[<-|[]]]]; vm_compute; discriminate.
  - vm_compute. reflexivity.
  - destruct (Hroute 1%nat (rt_slash24 LittleEndian))
      as (_ & d' & _ & Hres & Ht & _ & _ & _ & _ & Hatt & _).
    + vm_compute. reflexivity.
    + exists d'. repeat split; assumption.
Defined.

(** C4 as stated fails: the sample datagram with time-to-live 1, valid and
    for another host, is handed to the dispatcher, and no time-exceeded
    message leaves. *)
Lemma handleIPDatagram_ttl1_counterexample :
  ipDatagramShouldBeDropped LittleEndian
    (sample_collaborators LittleEndian ARP_RESOLVE_SUCCESS)
    (dg_hdr (sample_datagram LittleEndian 1)) = false /\
  ipDatagramDestinedForMe (sample_router LittleEndian)
    (ip_dst (dg_hdr (sample_datagram LittleEndian 1))) = false /\
  ip_ttl (dg_hdr (sample_datagram LittleEndian 1)) = 1 /\
  forward_attempted
    (trace (handleIPDatagram LittleEndian sample_defaults
              (sample_collaborators LittleEndian ARP_RESOLVE_SUCCESS)
              (sample_router LittleEndian) (Some sample_eth_hdr)
              (sample_datagram LittleEndian 1) 28)) = true /\
  time_exceeded_dispatched
    (trace (handleIPDatagram LittleEndian sample_defaults
              (sample_collaborators LittleEndian ARP_RESOLVE_SUCCESS)
              (sample_router LittleEndian) (Some sample_eth_hdr)
              (sample_datagram LittleEndian 1) 28)) = false.
Proof. vm_compute. repeat split; reflexivity. Qed.

(** C5, as the code has it.  A datagram in the forward branch reaches the
    routing lookup unchanged.  When the lookup finds a route, the buffer is
    handed to [sendIPDatagram], whose first step takes 1 off the
    time-to-live, once, before the resolution request and any transmit or
    enqueue call, all of which see the updated buffer.  When it finds none,
    the time-to-live is not touched. *)
Theorem forward_decrements_ttl_in_dispatch :
  forall (host : endianness) (K : ip_defaults) (C : collaborators)
         (sr : sr_instance) (eth_frame : option (list Z)) (d : datagram)
         (len : Z),
    ipDatagramShouldBeDropped host C (dg_hdr d) = false ->
    branch_guard sr (dg_hdr d) Forward ->
    0 <= ip_ttl (dg_hdr d) < 2 ^ 8 ->
    let r := handleIPDatagram host K C sr eth_frame d len in
    r = forward host C sr eth_frame d len /\
    (forall pos e,
        lookupRoutingTable host sr (ip_dst (dg_hdr d)) = Some (pos, e) ->
        r = sendIPDatagram host C sr (gw e) (interface e) d eth_frame len /\
        exists d',
          ip_dec_ttl host C d = ([], Returned d') /\
          result r = Returned d' /\
          ip_ttl (dg_hdr d') = ip_ttl (dg_hdr d) - 1 /\
          only_datagram d' (trace r)) /\
    (lookupRoutingTable host sr (ip_dst (dg_hdr d)) = None ->
     r = ([], Returned d)).
Proof.
  intros host K C sr eth_frame d len Hvalid [Hother Httl] Hrange r.
  destruct (handleIPDatagram_forwards host K C sr eth_frame d len Hvalid Hother Httl)
    as (Hfwd & Hroute & Hnone).
  fold r in Hfwd, Hroute, Hnone.
  split; [exact Hfwd|]. split; [|exact Hnone].
  intros pos e Hlook.
  destruct (Hroute pos e Hlook) as (Hsend & d' & Hrun & Hres & Ht & Honly & _).
  split; [exact Hsend|]. exists d'.
  rewrite uint8_small in Ht by lia. repeat split; assumption.
Qed.

(** The sample datagram with time-to-live 5 leaves the sample router with
    time-to-live 4. *)
Lemma forward_decrements_ttl_in_dispatch_witness :
  exists d',
    result (handleIPDatagram LittleEndian sample_defaults
              (sample_collaborators LittleEndian ARP_RESOLVE_SUCCESS)
              (sample_router LittleEndian) (Some sample_eth_hdr)
              (sample_datagram LittleEndian 5) 28) = Returned d' /\
    ip_ttl (dg_hdr d') = 4.
Proof.
  destruct (forward_decrements_ttl_in_dispatch LittleEndian sample_defaults
              (sample_collaborators LittleEndian ARP_RESOLVE_SUCCESS)
              (sample_router LittleEndian) (Some sample_eth_hdr)
              (sample_datagram LittleEndian 5) 28)
    as (_ & Hroute & _).
  - vm_compute. reflexivity.
  - split.
    + intros i [<-|[<-|[<-|[]]]]; vm_compute; discriminate.
    + vm_compute. discriminate.
  - vm_compute. split; [discriminate|reflexivity].
  - destruct (Hroute 1%nat (rt_slash24 LittleEndian))
      as (_ & d' & _ & Hres & Ht & _).
    + vm_compute. reflexivity.
    + exists d'. split; [exact Hres|exact Ht].
Defined.

(** C5 as stated fails: on a router without routes the sample datagram,
    valid, for another host and with time-to-live 5, is in the forward
    branch and comes back with its time-to-live still 5. *)
Lemma forward_without_route_counterexample :
  ipDatagramShouldBeDropped LittleEndian
    (sample_collaborators LittleEndian ARP_RESOLVE_SUCCESS)
    (dg_hdr (sample_datagram LittleEndian 5)) = false /\
  ipDatagramDestinedForMe (isolated_router LittleEndian)
    (ip_dst (dg_hdr (sample_datagram LittleEndian 5))) = false /\
  ip_ttl (dg_hdr (sample_datagram LittleEndian 5)) = 5 /\
  handleIPDatagram LittleEndian sample_defaults
    (sample_collaborators LittleEndian ARP_RESOLVE_SUCCESS)
    (isolated_router LittleEndian) (Some sample_eth_hdr)
    (sample_datagram LittleEndian 5) 28
  = ([], Returned (sample_datagram LittleEndian 5)).
Proof. vm_compute. repeat split; reflexivity. Qed.

(** ** The ICMP-on-IP composer *)

(** C7, as the code has it.  [setupIPHeaderForICMP] stores version 4,
    header length 5, the default type of service, the given total length,
    the default identification and fragment offset (all three in network
    byte order), the default time-to-live, protocol ICMP and the given
    source and destination.  It does not assign the checksum field, which
    keeps what the buffer held; the checksum is stored later, by
    [ip_dec_ttl], the first step of [sendIPDatagram], which also takes 1 off
    the time-to-live. *)
Theorem setupIPHeaderForICMP_fields :
  forall (host : endianness) (K : ip_defaults) (h : ip_hdr)
         (ip_datagram_total_len src_ip dest_ip : Z),
    ip_defaults_wf K ->
    0 <= ip_datagram_total_len < 2 ^ 16 ->
    0 <= src_ip < 2 ^ 32 ->
    0 <= dest_ip < 2 ^ 32 ->
    let h' :=
      setupIPHeaderForICMP host K h ip_datagram_total_len src_ip dest_ip in
    ip_v h' = 4 /\
    ip_hl h' = 5 /\
    ip_tos h' = DEFAULT_IP_TOS K /\
    ntohs host (ip_len h') = ip_datagram_total_len /\
    ntohs host (ip_id h') = DEFAULT_IP_ID K /\
    ntohs host (ip_off h') = DEFAULT_IP_FRAGMENT K /\
    ip_ttl h' = DEFAULT_IP_TTL K /\
    ip_p h' = IPPROTO_ICMP /\
    ip_src h' = src_ip /\
    ip_dst h' = dest_ip /\
    ip_sum h' = ip_sum h /\
    (forall (C : collaborators) (data : list Z),
        (forall bs, 0 <= csum C bs < 2 ^ 16) ->
        DEFAULT_IP_TTL K <> 0 ->
        exists d',
          ip_dec_ttl host C {| dg_hdr := h'; dg_data := data |}
          = ([], Returned d') /\
          ip_sum (dg_hdr d') =
            csum C (hdr_window host (set_ip_sum (dg_hdr d') 0) data 20) /\
          ip_ttl (dg_hdr d') = DEFAULT_IP_TTL K - 1).
Proof.
  intros host K h len src dst (Htos & Hid & Hoff & Httl) Hlen Hsrc Hdst h'.
  assert (Hfields :
            ip_v h' = 4 /\ ip_hl h' = 5 /\ ip_tos h' = DEFAULT_IP_TOS K /\
            ntohs host (ip_len h') = len /\
            ntohs host (ip_id h') = DEFAULT_IP_ID K /\
            ntohs host (ip_off h') = DEFAULT_IP_FRAGMENT K /\
            ip_ttl h' = DEFAULT_IP_TTL K /\ ip_p h' = IPPROTO_ICMP /\
            ip_src h' = src /\ ip_dst h' = dst /\ ip_sum h' = ip_sum h).
  { subst h'. unfold setupIPHeaderForICMP.
    cbn [ip_v ip_hl ip_tos ip_len ip_id ip_off ip_ttl ip_p ip_src ip_dst ip_sum].
    rewrite !ntohs_htons by assumption.
    rewrite !uint8_small by assumption.
    rewrite !uint32_small by assumption.
    repeat split; reflexivity. }
  destruct Hfields as (Hv & Hhl & Ht & Hl & Hi & Ho & Hl' & Hp & Hs & Hd & Hsum).
  repeat (split; [assumption|]).
  intros C data Hcs Hnz.
  destruct (ip_dec_ttl_returns host C {| dg_hdr := h'; dg_data := data |})
    as (d' & Hrun & Hdata & Hdec & Hck & Ehl & _).
  { cbn [dg_hdr]. rewrite Hl'. exact Hnz. }
  cbn [dg_hdr dg_data] in *.
  exists d'. split; [exact Hrun|]. split.
  - rewrite Hck, Hdata, Ehl, Hhl. apply uint16_small. apply Hcs.
  - rewrite Hdec, Hl'. apply uint8_small. lia.
Qed.

(** The header set up for a 28-byte datagram in a buffer that held zeros. *)
Lemma setupIPHeaderForICMP_fields_witness :
  ip_ttl (setupIPHeaderForICMP LittleEndian sample_defaults zero_hdr 28
            (inet_addr LittleEndian 10 0 0 254) (inet_addr LittleEndian 10 0 0 3))
  = 64 /\
  ip_sum (setupIPHeaderForICMP LittleEndian sample_defaults zero_hdr 28
            (inet_addr LittleEndian 10 0 0 254) (inet_addr LittleEndian 10 0 0 3))
  = 0.
Proof.
  destruct (setupIPHeaderForICMP_fields LittleEndian sample_defaults zero_hdr 28
              (inet_addr LittleEndian 10 0 0 254)
              (inet_addr LittleEndian 10 0 0 3))
    as (_ & _ & _ & _ & _ & _ & Httl & _ & _ & _ & Hsum & _).
  - vm_compute. repeat split; discriminate.
  - vm_compute. split; [discriminate|reflexivity].
  - vm_compute. split; [discriminate|reflexivity].
  - vm_compute. split; [discriminate|reflexivity].
  - split; [exact Httl|exact Hsum].
Defined.

(** C7 as stated fails: in a buffer that held zeros the checksum field is
    still 0 after [setupIPHeaderForICMP], while the checksum of the header
    it built is 57701. *)
Lemma setupIPHeaderForICMP_checksum_counterexample :
  ip_sum (setupIPHeaderForICMP LittleEndian sample_defaults zero_hdr 28
            (inet_addr LittleEndian 10 0 0 254) (inet_addr LittleEndian 10 0 0 3))
  = 0 /\
  csum_spec LittleEndian
    (hdr_window LittleEndian
       (set_ip_sum
          (setupIPHeaderForICMP LittleEndian sample_defaults zero_hdr 28
             (inet_addr LittleEndian 10 0 0 254)
             (inet_addr LittleEndian 10 0 0 3)) 0) [] 20)
  = 57701.
Proof. vm_compute. split; reflexivity. Qed.

(** C8. A call of [sendIcmpMessageWithSrcIP] or of [sendIcmpMessage] whose
    destination has no route makes no call at all, whatever its arguments:
    nothing is allocated, nothing dispatched, transmitted or enqueued.  When
    the call keeps the contract the assertions state (the length reaches
    MIN_ICMP_MSG_LEN, the message is not null, source and destination are
    not zero and, for [sendIcmpMessage], the source is the address of the
    first interface), it returns. *)
Theorem sendIcmpMessage_without_route :
  forall (host : endianness) (K : ip_defaults) (C : collaborators)
         (s : sr_instance) (icmp_message : option (list Z))
         (icmp_msg_len dest_ip src_ip : Z),
    lookupRoutingTable host s dest_ip = None ->
    let r1 :=
      sendIcmpMessageWithSrcIP host K C (Some s) icmp_message icmp_msg_len
        dest_ip src_ip in
    let r2 :=
      sendIcmpMessage host K C (Some s) icmp_message icmp_msg_len dest_ip in
    trace r1 = [] /\
    trace r2 = [] /\
    (icmp_msg_len >= MIN_ICMP_MSG_LEN K -> icmp_message <> None ->
     src_ip <> 0 -> dest_ip <> 0 ->
     r1 = ([], Returned tt)) /\
    (icmp_msg_len >= MIN_ICMP_MSG_LEN K -> icmp_message <> None ->
     dest_ip <> 0 ->
     forall iface, hd_error (if_list s) = Some iface -> ip iface <> 0 ->
     r2 = ([], Returned tt)).
Proof.
  intros host K C s msg len dst src Hlook r1 r2.
  assert (H1 : forall src',
             let r := sendIcmpMessageWithSrcIP host K C (Some s) msg len dst src' in
             trace r = [] /\
             (len >= MIN_ICMP_MSG_LEN K -> msg <> None -> src' <> 0 -> dst <> 0 ->
              r = ([], Returned tt))).
  { intros src' r. subst r. unfold sendIcmpMessageWithSrcIP.
    destruct (Z.geb_spec len (MIN_ICMP_MSG_LEN K)) as [Hlen|Hlen];
      cbn [assert bind ret app];
      [|repeat split; auto; intros; lia].
    destruct msg as [m|]; cbn [assert_ptr bind ret app];
      [|repeat split; auto; intros; congruence].
    destruct (Z.eqb_spec src' 0) as [Hs|Hs]; cbn [negb assert bind ret app];
      [repeat split; auto; intros; contradiction|].
    destruct (Z.eqb_spec dst 0) as [Hd|Hd]; cbn [negb assert bind ret app];
      [repeat split; auto; intros; contradiction|].
    rewrite Hlook. repeat split; auto. }
  split; [apply (H1 src)|]. split; [|split; [apply (H1 src)|]].
  - subst r2. unfold sendIcmpMessage.
    destruct (len >=? MIN_ICMP_MSG_LEN K); cbn [assert bind ret app];
      [|reflexivity].
    destruct msg as [m|]; cbn [assert_ptr bind ret app]; [|reflexivity].
    destruct (negb (dst =? 0)); cbn [assert bind ret app]; [|reflexivity].
    destruct (hd_error (if_list s)) as [iface|];
      cbn [assert_ptr bind ret app]; [|reflexivity].
    destruct (H1 (ip iface)) as (Ht & _).
    destruct (sendIcmpMessageWithSrcIP host K C (Some s) (Some m) len dst (ip iface))
      as [t o]. cbn [trace fst] in *. subst t. reflexivity.
  - intros Hlen Hmsg Hd iface Hhd Hip. subst r2. unfold sendIcmpMessage.
    destruct (Z.geb_spec len (MIN_ICMP_MSG_LEN K)) as [_|Hlt]; [|lia].
    destruct msg as [m|]; [|congruence].
    cbn [assert assert_ptr bind ret app].
    destruct (Z.eqb_spec dst 0) as [|_]; [contradiction|].
    cbn [negb assert assert_ptr bind ret app].
    rewrite Hhd. cbn [assert_ptr bind ret app].
    destruct (H1 (ip iface)) as (_ & Hret).
    rewrite (Hret Hlen Hmsg Hip Hd). reflexivity.
Qed.

(** An ICMP message for 192.168.1.1, to which the sample router has no
    route: the call returns and leaves no event. *)
Lemma sendIcmpMessage_without_route_witness :
  sendIcmpMessageWithSrcIP LittleEndian sample_defaults
    (sample_collaborators LittleEndian ARP_RESOLVE_SUCCESS)
    (Some (sample_router LittleEndian)) (Some sample_icmp_message) 8
    (inet_addr LittleEndian 192 168 1 1) (inet_addr LittleEndian 10 0 0 254)
  = ([], Returned tt).
Proof.
  destruct (sendIcmpMessage_without_route LittleEndian sample_defaults
              (sample_collaborators LittleEndian ARP_RESOLVE_SUCCESS)
              (sample_router LittleEndian) (Some sample_icmp_message) 8
              (inet_addr LittleEndian 192 168 1 1)
              (inet_addr LittleEndian 10 0 0 254))
    as (_ & _ & Hret & _).
  - vm_compute. reflexivity.
  - apply Hret; vm_compute; discriminate.
Defined.

(** * Further properties of the code *)

(** ** The dispatcher, by the answer of address resolution *)

(** X1. A dispatch that reaches address resolution (the time-to-live handed
    in is not zero) and is answered [ARP_RESOLVE_SUCCESS] makes, after the
    resolution request, exactly one transmit call and no enqueue call, and
    returns.  The call is [sendEthFrameContainingIPDatagram] on the enclosing
    frame when there is one and [ethSendIPDatagram] on the datagram
    otherwise; it gets the address [resolveMAC] wrote, the interface found by
    name, and the buffer with the decremented time-to-live. *)
Theorem sendIPDatagram_resolved_transmits_once :
  forall (host : endianness) (C : collaborators) (sr : sr_instance)
         (next_hop_ip : Z) (interface : string) (d : datagram)
         (eth_frame : option (list Z)) (len : Z),
    ip_ttl (dg_hdr d) <> 0 ->
    fst (resolveMAC C sr next_hop_ip (sr_get_interface C sr interface))
    = ARP_RESOLVE_SUCCESS ->
    let r := sendIPDatagram host C sr next_hop_ip interface d eth_frame len in
    let out := sr_get_interface C sr interface in
    let mac := snd (resolveMAC C sr next_hop_ip out) in
    exists d',
      ip_dec_ttl host C d = ([], Returned d') /\
      r = ([ResolveMAC next_hop_ip out ARP_RESOLVE_SUCCESS;
            match eth_frame with
            | Some eth_hdr =>
                SendEthFrameContainingIPDatagram mac eth_hdr d' out len
            | None => EthSendIPDatagram mac d' out len
            end],
           Returned d') /\
      filter is_enqueue (trace r) = [] /\
      filter is_transmit (trace r) =
        [match eth_frame with
         | Some eth_hdr =>
             SendEthFrameContainingIPDatagram mac eth_hdr d' out len
         | None => EthSendIPDatagram mac d' out len
         end].
Proof.
  intros host C sr nh ifn d frame len Httl Hst r out mac. subst r out mac.
  destruct (ip_dec_ttl_returns host C d Httl) as (d' & Hrun & _).
  exists d'. split; [exact Hrun|].
  rewrite (sendIPDatagram_run host C sr nh ifn d d' frame len Hrun).
  rewrite Hst. destruct frame; repeat split; reflexivity.
Qed.

(** The sample datagram, with its frame, when resolution succeeds: the
    frame is sent once. *)
Lemma sendIPDatagram_resolved_transmits_once_witness :
  exists d',
    filter is_transmit
      (trace (sendIPDatagram LittleEndian
                (sample_collaborators LittleEndian ARP_RESOLVE_SUCCESS)
                (sample_router LittleEndian) (inet_addr LittleEndian 10 0 1 1)
                "eth2" (sample_datagram LittleEndian 5) (Some sample_eth_hdr) 28))
    = [SendEthFrameContainingIPDatagram sample_mac sample_eth_hdr d'
         (sr_get_interface (sample_collaborators LittleEndian ARP_RESOLVE_SUCCESS)
            (sample_router LittleEndian) "eth2") 28].
Proof.
  destruct (sendIPDatagram_resolved_transmits_once LittleEndian
              (sample_collaborators LittleEndian ARP_RESOLVE_SUCCESS)
              (sample_router LittleEndian) (inet_addr LittleEndian 10 0 1 1)
              "eth2" (sample_datagram LittleEndian 5) (Some sample_eth_hdr) 28)
    as (d' & _ & _ & _ & Htx).
  - vm_compute. discriminate.
  - reflexivity.
  - exists d'. exact Htx.
Defined.

(** X2. A dispatch that reaches address resolution and gets any answer
    other than success or request-sent returns without a transmit call,
    without an enqueue call and without allocating anything.  On
    [ARP_RESOLVE_FAIL] it makes, after the resolution request, exactly one
    [handleUndeliverableBufferedIPDatagram] call, for the next hop and the
    interface found by name; on an unknown code it makes no further call. *)
Theorem sendIPDatagram_unresolved_never_transmits :
  forall (host : endianness) (C : collaborators) (sr : sr_instance)
         (next_hop_ip : Z) (interface : string) (d : datagram)
         (eth_frame : option (list Z)) (len : Z),
    ip_ttl (dg_hdr d) <> 0 ->
    fst (resolveMAC C sr next_hop_ip (sr_get_interface C sr interface))
    <> ARP_RESOLVE_SUCCESS ->
    fst (resolveMAC C sr next_hop_ip (sr_get_interface C sr interface))
    <> ARP_REQUEST_SENT ->
    let r := sendIPDatagram host C sr next_hop_ip interface d eth_frame len in
    let out := sr_get_interface C sr interface in
    let status := fst (resolveMAC C sr next_hop_ip out) in
    exists d',
      ip_dec_ttl host C d = ([], Returned d') /\
      r = (ResolveMAC next_hop_ip out status ::
           match status with
           | ARP_RESOLVE_FAIL =>
               [HandleUndeliverableBufferedIPDatagram next_hop_ip out]
           | _ => []
           end,
           Returned d') /\
      filter is_transmit (trace r) = [] /\
      filter is_enqueue (trace r) = [] /\
      existsb is_malloc (trace r) = false.
Proof.
  intros host C sr nh ifn d frame len Httl Hns Hnp r out status.
  subst r out status.
  destruct (ip_dec_ttl_returns host C d Httl) as (d' & Hrun & _).
  exists d'. split; [exact Hrun|].
  rewrite (sendIPDatagram_run host C sr nh ifn d d' frame len Hrun).
  destruct (fst (resolveMAC C sr nh (sr_get_interface C sr ifn)));
    try contradiction; repeat split; reflexivity.
Qed.

(** The sample datagram when resolution fails: one drain of the datagrams
    buffered for the next hop, nothing sent. *)
Lemma sendIPDatagram_unresolved_never_transmits_witness :
  exists d',
    sendIPDatagram LittleEndian
      (sample_collaborators LittleEndian ARP_RESOLVE_FAIL)
      (sample_router LittleEndian) (inet_addr LittleEndian 10 0 1 1)
      "eth2" (sample_datagram LittleEndian 5) (Some sample_eth_hdr) 28
    = ([ResolveMAC (inet_addr LittleEndian 10 0 1 1)
          (sr_get_interface (sample_collaborators LittleEndian ARP_RESOLVE_FAIL)
             (sample_router LittleEndian) "eth2") ARP_RESOLVE_FAIL;
        HandleUndeliverableBufferedIPDatagram (inet_addr LittleEndian 10 0 1 1)
          (sr_get_interface (sample_collaborators LittleEndian ARP_RESOLVE_FAIL)
             (sample_router LittleEndian) "eth2")],
       Returned d').
Proof.
  destruct (sendIPDatagram_unresolved_never_transmits LittleEndian
              (sample_collaborators LittleEndian ARP_RESOLVE_FAIL)
              (sample_router LittleEndian) (inet_addr LittleEndian 10 0 1 1)
              "eth2" (sample_datagram LittleEndian 5) (Some sample_eth_hdr) 28)
    as (d' & _ & Hr & _).
  - vm_compute. discriminate.
  - discriminate.
  - discriminate.
  - exists d'. exact Hr.
Defined.


(** ** Local delivery and the entry point *)

(** X4. Local delivery answers echo requests and nothing else.  A datagram
    of another protocol makes [processIPDatagramDestinedForMe] return at
    once, with no call and the buffer as it was; an ICMP message of another
    type only prints a line.  For an ICMP message of type ICMP_REQUEST it
    calls [icmp_reply] once, on the enclosing frame, with the datagram length
    plus 14 and the interface name "eth0" whichever interface the request was
    for; it then returns the buffer as [icmp_reply] leaves it, after one more
    line when the return code is 0, and does not return when [icmp_reply]
    does not. *)
Theorem processIPDatagramDestinedForMe_replies_to_echo_only :
  forall (K : ip_defaults) (C : collaborators) (sr : sr_instance)
         (eth_frame : option (list Z)) (d : datagram) (len : Z),
    let r := processIPDatagramDestinedForMe K C sr eth_frame d len in
    let call := icmp_reply C sr eth_frame d (uint32 (len + 14)) "eth0" in
    (ip_p (dg_hdr d) <> IPPROTO_ICMP -> r = ([], Returned d)) /\
    (ip_p (dg_hdr d) = IPPROTO_ICMP ->
     icmp_type C (dg_data d) <> ICMP_REQUEST K ->
     r = ([Printf ("IP packet is of type ICMP!" ++ nl)], Returned d)) /\
    (ip_p (dg_hdr d) = IPPROTO_ICMP ->
     icmp_type C (dg_data d) = ICMP_REQUEST K ->
     r = ([Printf ("IP packet is of type ICMP!" ++ nl);
           Printf ("Got ICMP REQUEST!" ++ nl);
           IcmpReply eth_frame d (uint32 (len + 14)) "eth0"]
          ++ trace call
          ++ match result call with
             | Returned answer =>
                 if fst answer =? 0
                 then [Printf ("Sent ICMP REPLY!" ++ nl)]
                 else []
             | _ => []
             end,
          match result call with
          | Returned answer => Returned (snd answer)
          | Aborted => Aborted
          | Overrun => Overrun
          end)).
Proof.
  intros K C sr eth_frame d len r call. subst r call.
  unfold processIPDatagramDestinedForMe.
  destruct (Z.eqb_spec (ip_p (dg_hdr d)) IPPROTO_ICMP) as [Hp|Hp].
  2:{ split; [reflexivity|]. split; intros; contradiction. }
  split; [intros; contradiction|].
  destruct (Z.eqb_spec (icmp_type C (dg_data d)) (ICMP_REQUEST K)) as [Ht|Ht].
  2:{ split; [reflexivity|]. intros; contradiction. }
  split; [intros; contradiction|]. intros _ _.
  unfold trace, result.
  destruct (icmp_reply C sr eth_frame d (uint32 (len + 14)) "eth0")
    as [t [[rc d']| |]]; cbn [bind emit ret app fst snd];
    [|rewrite app_nil_r; reflexivity|rewrite app_nil_r; reflexivity].
  destruct (rc =? 0); cbn [bind emit ret app fst snd].
  - reflexivity.
  - rewrite !app_nil_r. reflexivity.
Qed.

(** X5. [handleIPDatagram] fails no assertion of its own.  For a datagram
    that is rejected or is for another host it returns, leaving in the
    buffer the payload and every header field but time-to-live and checksum,
    after no allocation, at most one resolution request and at most one
    transmit or enqueue call: the assertion of [ip_dec_ttl] cannot fail on the
    way from it.  A run that does not return is one in which [icmp_reply],
    called for an echo request to the router, did not. *)
Theorem handleIPDatagram_own_assertions_hold :
  forall (host : endianness) (K : ip_defaults) (C : collaborators)
         (sr : sr_instance) (eth_frame : option (list Z)) (d : datagram)
         (len : Z),
    let r := handleIPDatagram host K C sr eth_frame d len in
    (ipDatagramShouldBeDropped host C (dg_hdr d) = true \/
     ipDatagramDestinedForMe sr (ip_dst (dg_hdr d)) = false ->
     exists d',
       result r = Returned d' /\
       dg_data d' = dg_data d /\
       same_but_ttl_sum (dg_hdr d) (dg_hdr d') /\
       existsb is_malloc (trace r) = false /\
       (List.length (filter is_resolve (trace r)) <= 1)%nat /\
       (List.length (filter is_transmit (trace r))
        + List.length (filter is_enqueue (trace r)) <= 1)%nat) /\
    ((forall d', result r <> Returned d') ->
     ipDatagramShouldBeDropped host C (dg_hdr d) = false /\
     ipDatagramDestinedForMe sr (ip_dst (dg_hdr d)) = true /\
     ip_p (dg_hdr d) = IPPROTO_ICMP /\
     icmp_type C (dg_data d) = ICMP_REQUEST K /\
     forall answer,
       result (icmp_reply C sr eth_frame d (uint32 (len + 14)) "eth0")
       <> Returned answer).
Proof.
  intros host K C sr eth_frame d len r.
  assert (Hquiet : forall x : datagram,
             same_but_ttl_sum (dg_hdr d) (dg_hdr x) -> dg_data x = dg_data d ->
             (@nil event, Returned x) = r ->
             exists d',
               result r = Returned d' /\
               dg_data d' = dg_data d /\
               same_but_ttl_sum (dg_hdr d) (dg_hdr d') /\
               existsb is_malloc (trace r) = false /\
               (List.length (filter is_resolve (trace r)) <= 1)%nat /\
               (List.length (filter is_transmit (trace r))
                + List.length (filter is_enqueue (trace r)) <= 1)%nat).
  { intros x Hs Hd <-. exists x. cbn. repeat split; auto. }
  assert (Hfwd : ipDatagramShouldBeDropped host C (dg_hdr d) = false ->
                 ipDatagramDestinedForMe sr (ip_dst (dg_hdr d)) = false ->
                 exists d',
                   result r = Returned d' /\
                   dg_data d' = dg_data d /\
                   same_but_ttl_sum (dg_hdr d) (dg_hdr d') /\
                   existsb is_malloc (trace r) = false /\
                   (List.length (filter is_resolve (trace r)) <= 1)%nat /\
                   (List.length (filter is_transmit (trace r))
                    + List.length (filter is_enqueue (trace r)) <= 1)%nat).
  { intros Hvalid Hlocal.
    assert (Hr : r = if ip_ttl (dg_hdr d) =? 0 then ret d
                     else forward host C sr eth_frame d len).
    { subst r. rewrite (handleIPDatagram_valid host K C sr eth_frame d len Hvalid).
      rewrite Hlocal. reflexivity. }
    destruct (Z.eqb_spec (ip_ttl (dg_hdr d)) 0) as [H0|Hn0].
    { apply (Hquiet d); [reflexivity|reflexivity|]. rewrite Hr. reflexivity. }
    unfold forward in Hr.
    destruct (lookupRoutingTable host sr (ip_dst (dg_hdr d))) as [[pos e]|].
    2:{ apply (Hquiet d); [reflexivity|reflexivity|]. rewrite Hr. reflexivity. }
    destruct (ip_dec_ttl_returns host C d Hn0) as (d' & Hrun & _).
    destruct (ip_dec_ttl_frame host C d d' Hrun) as (Hdata & Hsame).
    exists d'. rewrite Hr.
    rewrite (sendIPDatagram_run host C sr (gw e) (interface e) d d' eth_frame
               len Hrun).
    unfold result, trace. cbn [fst snd].
    destruct (fst (resolveMAC C sr (gw e) (sr_get_interface C sr (interface e))));
      destruct eth_frame; cbn; repeat split; auto. }
  split.
  - intros [Hdrop|Hlocal].
    + apply (Hquiet d); [reflexivity|reflexivity|].
      subst r. unfold handleIPDatagram. rewrite Hdrop. reflexivity.
    + destruct (ipDatagramShouldBeDropped host C (dg_hdr d)) eqn:Hdrop.
      * apply (Hquiet d); [reflexivity|reflexivity|].
        subst r. unfold handleIPDatagram. rewrite Hdrop. reflexivity.
      * apply Hfwd; [reflexivity|exact Hlocal].
  - intros Hnot.
    destruct (ipDatagramShouldBeDropped host C (dg_hdr d)) eqn:Hdrop.
    { exfalso. apply (Hnot d). subst r. unfold handleIPDatagram.
      rewrite Hdrop. reflexivity. }
    destruct (ipDatagramDestinedForMe sr (ip_dst (dg_hdr d))) eqn:Hlocal.
    2:{ exfalso. destruct (Hfwd eq_refl eq_refl) as (d' & Hres & _).
        exact (Hnot d' Hres). }
    assert (Hr : r = processIPDatagramDestinedForMe K C sr eth_frame d len).
    { subst r. rewrite (handleIPDatagram_valid host K C sr eth_frame d len Hdrop).
      rewrite Hlocal. reflexivity. }
    rewrite Hr in Hnot. unfold processIPDatagramDestinedForMe in Hnot.
    destruct (Z.eqb_spec (ip_p (dg_hdr d)) IPPROTO_ICMP) as [Hp|Hp].
    2:{ exfalso. exact (Hnot d eq_refl). }
    destruct (Z.eqb_spec (icmp_type C (dg_data d)) (ICMP_REQUEST K)) as [Ht|Ht].
    2:{ exfalso. exact (Hnot d eq_refl). }
    repeat split; auto.
    intros answer Hans.
    destruct (icmp_reply C sr eth_frame d (uint32 (len + 14)) "eth0")
      as [t o]. unfold result in Hans. cbn [snd] in Hans. subst o.
    cbn [bind emit ret app fst snd] in Hnot.
    destruct (fst answer =? 0); cbn [bind emit ret app fst snd] in Hnot;
      exact (Hnot (snd answer) eq_refl).
Qed.

(** X6. The datagrams [handleIPDatagram] discards without a word: one the
    validator rejects, one for another host whose time-to-live is zero, and
    one for another host to which no route is found.  In each case no call
    is made, so no ICMP error goes back to the sender, and the buffer is
    unchanged. *)
Theorem handleIPDatagram_silent_discards :
  forall (host : endianness) (K : ip_defaults) (C : collaborators)
         (sr : sr_instance) (eth_frame : option (list Z)) (d : datagram)
         (len : Z),
    ipDatagramShouldBeDropped host C (dg_hdr d) = true \/
    (ipDatagramDestinedForMe sr (ip_dst (dg_hdr d)) = false /\
     (ip_ttl (dg_hdr d) = 0 \/
      lookupRoutingTable host sr (ip_dst (dg_hdr d)) = None)) ->
    handleIPDatagram host K C sr eth_frame d len = ([], Returned d).
Proof.
  intros host K C sr eth_frame d len H. unfold handleIPDatagram.
  destruct (ipDatagramShouldBeDropped host C (dg_hdr d)); [reflexivity|].
  destruct H as [H|[Hl H]]; [discriminate|]. rewrite Hl.
  destruct (Z.eqb_spec (ip_ttl (dg_hdr d)) 0) as [H0|Hn0]; cbn [negb];
    [reflexivity|].
  destruct H as [H|H]; [contradiction|].
  unfold forward. rewrite H. reflexivity.
Qed.

(** The sample datagram on the router without routes. *)
Lemma handleIPDatagram_silent_discards_witness :
  handleIPDatagram LittleEndian sample_defaults
    (sample_collaborators LittleEndian ARP_RESOLVE_SUCCESS)
    (isolated_router LittleEndian) (Some sample_eth_hdr)
    (sample_datagram LittleEndian 5) 28
  = ([], Returned (sample_datagram LittleEndian 5)).
Proof.
  apply handleIPDatagram_silent_discards.
  right. split; [vm_compute; reflexivity|]. right. vm_compute. reflexivity.
Defined.

(** X7. Forwarding follows the entry the lookup returns and changes only
    time-to-live and checksum.  For a valid datagram for another host with a
    time-to-live other than zero and a route, the one resolution request is
    for the gateway of the returned entry on the interface that entry names,
    and the buffer every later call sees has the payload and every other
    header field of the received one. *)
Theorem handleIPDatagram_forward_preserves_datagram :
  forall (host : endianness) (K : ip_defaults) (C : collaborators)
         (sr : sr_instance) (eth_frame : option (list Z)) (d : datagram)
         (len : Z) (pos : nat) (e : sr_rt),
    ipDatagramShouldBeDropped host C (dg_hdr d) = false ->
    ipDatagramDestinedForMe sr (ip_dst (dg_hdr d)) = false ->
    ip_ttl (dg_hdr d) <> 0 ->
    lookupRoutingTable host sr (ip_dst (dg_hdr d)) = Some (pos, e) ->
    let r := handleIPDatagram host K C sr eth_frame d len in
    exists d',
      result r = Returned d' /\
      dg_data d' = dg_data d /\
      same_but_ttl_sum (dg_hdr d) (dg_hdr d') /\
      only_datagram d' (trace r) /\
      filter is_resolve (trace r) =
        [let out := sr_get_interface C sr (interface e) in
         ResolveMAC (gw e) out (fst (resolveMAC C sr (gw e) out))].
Proof.
  intros host K C sr eth_frame d len pos e Hvalid Hlocal Httl Hlook r.
  subst r. unfold handleIPDatagram. rewrite Hvalid, Hlocal.
  destruct (Z.eqb_spec (ip_ttl (dg_hdr d)) 0) as [H0|_]; [contradiction|].
  cbn [negb]. unfold forward. rewrite Hlook.
  destruct (ip_dec_ttl_returns host C d Httl) as (d' & Hrun & _).
  destruct (ip_dec_ttl_frame host C d d' Hrun) as (Hdata & Hsame).
  destruct (sendIPDatagram_trace host C sr (gw e) (interface e) d d'
              eth_frame len Hrun) as (_ & Honly & _).
  exists d'. split; [|split; [exact Hdata|split; [exact Hsame|split; [exact Honly|]]]].
  - rewrite (sendIPDatagram_run host C sr (gw e) (interface e) d d' eth_frame len Hrun).
    reflexivity.
  - rewrite (sendIPDatagram_run host C sr (gw e) (interface e) d d' eth_frame len Hrun).
    unfold trace. cbn [fst].
    destruct (fst (resolveMAC C sr (gw e) (sr_get_interface C sr (interface e))));
      destruct eth_frame; reflexivity.
Qed.

(** The sample datagram on the sample router: resolution is asked for
    10.0.1.1, the gateway of the /24 route. *)
Lemma handleIPDatagram_forward_preserves_datagram_witness :
  exists status,
    filter is_resolve
      (trace (handleIPDatagram LittleEndian sample_defaults
                (sample_collaborators LittleEndian ARP_RESOLVE_SUCCESS)
                (sample_router LittleEndian) (Some sample_eth_hdr)
                (sample_datagram LittleEndian 5) 28))
    = [ResolveMAC (inet_addr LittleEndian 10 0 1 1)
         (sr_get_interface (sample_collaborators LittleEndian ARP_RESOLVE_SUCCESS)
            (sample_router LittleEndian) "eth2") status].
Proof.
  destruct (handleIPDatagram_forward_preserves_datagram LittleEndian
              sample_defaults
              (sample_collaborators LittleEndian ARP_RESOLVE_SUCCESS)
              (sample_router LittleEndian) (Some sample_eth_hdr)
              (sample_datagram LittleEndian 5) 28 1%nat (rt_slash24 LittleEndian))
    as (d' & _ & _ & _ & _ & Hres).
  - vm_compute. reflexivity.
  - vm_compute. reflexivity.
  - vm_compute. discriminate.
  - vm_compute. reflexivity.
  - eexists. exact Hres.
Defined.

(** ** Sending an ICMP message over a route *)

(** The run of [sendIcmpMessageWithSrcIP] once its assertions hold, a route
    is found, the sum of the lengths fits 16 bits and the buffer is
    allocated. *)
Lemma sendIcmp_run (host : endianness) (K : ip_defaults) (C : collaborators)
  (s : sr_instance) (m : list Z) (len dst src : Z) (pos : nat) (e : sr_rt)
  (buf : datagram) :
  len >= MIN_ICMP_MSG_LEN K -> 0 <= len <= 2 ^ 16 - 21 ->
  src <> 0 -> dst <> 0 ->
  lookupRoutingTable host s dst = Some (pos, e) ->
  malloc C (20 + len) = Some buf ->
  sendIcmpMessageWithSrcIP host K C (Some s) (Some m) len dst src =
  match
    sendIPDatagram host C s (gw e) (interface e)
      {| dg_hdr := setupIPHeaderForICMP host K (dg_hdr buf) (20 + len) src dst;
         dg_data := firstn (Z.to_nat len) m |} None (20 + len)
  with
  | (t, Returned _) => (Malloc (20 + len) :: t ++ [Free], Returned tt)
  | (t, Aborted) => (Malloc (20 + len) :: t, Aborted)
  | (t, Overrun) => (Malloc (20 + len) :: t, Overrun)
  end.
Proof.
  intros Hlen Hfit Hsrc Hdst Hlook Hbuf. unfold sendIcmpMessageWithSrcIP.
  assert (Htot : uint16 (20 + len) = 20 + len).
  { apply uint16_small. change (2 ^ 16) with 65536 in *. lia. }
  destruct (Z.geb_spec len (MIN_ICMP_MSG_LEN K)) as [_|Hlt]; [|lia].
  cbn [assert assert_ptr bind ret app].
  destruct (Z.eqb_spec src 0) as [|_]; [contradiction|].
  destruct (Z.eqb_spec dst 0) as [|_]; [contradiction|].
  cbn [negb assert assert_ptr bind ret app].
  rewrite Hlook, Htot, Hbuf. unfold write_within.
  destruct (Z.leb_spec 20 (20 + len)) as [_|Hbad]; [|lia].
  rewrite Z.leb_refl. cbn [emit assert_ptr bind ret app].
  destruct (sendIPDatagram host C s (gw e) (interface e) _ None (20 + len))
    as [t [d'| |]]; cbn [bind emit app]; reflexivity.
Qed.

(** X8. An ICMP message sent over a route: when the assertions hold, the
    message has at most 65515 bytes, a route to the destination is found, the
    allocation succeeds and the default time-to-live is not zero,
    [sendIcmpMessageWithSrcIP] returns after one allocation of 20 bytes plus
    the message length, one resolution request for the gateway of the route
    on the interface the route names, what the answer selects, and one
    release of the buffer as its last call.  The datagram has no enclosing
    frame: a resolved next hop gets one [ethSendIPDatagram] call, a pending
    one gets one [bufferIPDatagram] call. *)
Theorem sendIcmpMessageWithSrcIP_over_route :
  forall (host : endianness) (K : ip_defaults) (C : collaborators)
         (s : sr_instance) (m : list Z) (len dst src : Z) (pos : nat)
         (e : sr_rt) (buf : datagram),
    len >= MIN_ICMP_MSG_LEN K -> 0 <= len <= 2 ^ 16 - 21 ->
    src <> 0 -> dst <> 0 ->
    lookupRoutingTable host s dst = Some (pos, e) ->
    malloc C (20 + len) = Some buf ->
    uint8 (DEFAULT_IP_TTL K) <> 0 ->
    let r := sendIcmpMessageWithSrcIP host K C (Some s) (Some m) len dst src in
    let out := sr_get_interface C s (interface e) in
    let status := fst (resolveMAC C s (gw e) out) in
    let mac := snd (resolveMAC C s (gw e) out) in
    exists d',
      ip_dec_ttl host C
        {| dg_hdr := setupIPHeaderForICMP host K (dg_hdr buf) (20 + len) src dst;
           dg_data := firstn (Z.to_nat len) m |} = ([], Returned d') /\
      r = (Malloc (20 + len)
           :: ResolveMAC (gw e) out status
           :: match status with
              | ARP_RESOLVE_SUCCESS => [EthSendIPDatagram mac d' out (20 + len)]
              | ARP_REQUEST_SENT =>
                  [BufferIPDatagram (gw e) d' (interface e) (20 + len);
                   Printf ("ip packet buffered" ++ nl)]
              | ARP_RESOLVE_FAIL =>
                  [HandleUndeliverableBufferedIPDatagram (gw e) out]
              | ARP_OTHER _ => []
              end
           ++ [Free],
           Returned tt).
Proof.
  intros host K C s m len dst src pos e buf Hlen Hfit Hsrc Hdst Hlook Hbuf Httl
         r out status mac.
  subst r. rewrite (sendIcmp_run host K C s m len dst src pos e buf) by assumption.
  set (d0 := {| dg_hdr := _; dg_data := _ |}).
  destruct (ip_dec_ttl_returns host C d0) as (d' & Hrun & _); [exact Httl|].
  rewrite (sendIPDatagram_run host C s (gw e) (interface e) d0 d' None
             (20 + len) Hrun).
  fold out. fold status. fold mac. exists d'. split; [exact Hrun|].
  destruct status; reflexivity.
Qed.

(** An echo reply for 10.0.0.3 from the sample router: four calls. *)
Lemma sendIcmpMessageWithSrcIP_over_route_witness :
  exists d',
    sendIcmpMessageWithSrcIP LittleEndian sample_defaults
      (sample_collaborators LittleEndian ARP_RESOLVE_SUCCESS)
      (Some (sample_router LittleEndian)) (Some sample_icmp_message) 8
      (inet_addr LittleEndian 10 0 0 3) (inet_addr LittleEndian 10 0 0 254)
    = ([Malloc 28;
        ResolveMAC (inet_addr LittleEndian 10 0 0 1)
          (sr_get_interface (sample_collaborators LittleEndian ARP_RESOLVE_SUCCESS)
             (sample_router LittleEndian) "eth1") ARP_RESOLVE_SUCCESS;
        EthSendIPDatagram sample_mac d'
          (sr_get_interface (sample_collaborators LittleEndian ARP_RESOLVE_SUCCESS)
             (sample_router LittleEndian) "eth1") 28;
        Free],
       Returned tt).
Proof.
  destruct (sendIcmpMessageWithSrcIP_over_route LittleEndian sample_defaults
              (sample_collaborators LittleEndian ARP_RESOLVE_SUCCESS)
              (sample_router LittleEndian) sample_icmp_message 8
              (inet_addr LittleEndian 10 0 0 3) (inet_addr LittleEndian 10 0 0 254)
              0%nat (rt_slash8 LittleEndian)
              {| dg_hdr := zero_hdr; dg_data := [] |})
    as (d' & _ & Hr).
  - vm_compute. discriminate.
  - vm_compute. split; discriminate.
  - vm_compute. discriminate.
  - vm_compute. discriminate.
  - vm_compute. reflexivity.
  - reflexivity.
  - vm_compute. discriminate.
  - exists d'. exact Hr.
Defined.

(** A header that passes the first three tests passes the validator after
    [ip_dec_ttl]. *)
Lemma ip_dec_ttl_valid (host : endianness) (C : collaborators) (d d' : datagram) :
  (forall bs, 0 <= csum C bs < 2 ^ 16) ->
  ip_dec_ttl host C d = ([], Returned d') ->
  ntohs host (ip_len (dg_hdr d)) >= 20 -> ip_v (dg_hdr d) = 4 ->
  ip_hl (dg_hdr d) <= 5 ->
  ipDatagramShouldBeDropped host C (dg_hdr d') = false.
Proof.
  intros Hcs Hrun Hlen Hv Hhl.
  destruct (Z.eq_dec (ip_ttl (dg_hdr d)) 0) as [H0|Hn0].
  { rewrite (ip_dec_ttl_aborts host C d H0) in Hrun. discriminate. }
  destruct (ip_dec_ttl_returns host C d Hn0)
    as (d2 & Hrun2 & _ & _ & Hs & Ehl & Ev & Elen & _).
  rewrite Hrun in Hrun2. inversion Hrun2; subst d2.
  rewrite uint16_small in Hs by apply Hcs.
  destruct (ipDatagramShouldBeDropped host C (dg_hdr d')) eqn:Hdrop;
    [|reflexivity].
  apply should_drop_tests in Hdrop. rewrite Elen, Ev, Ehl in Hdrop.
  destruct Hdrop as [H|[H|[H|H]]]; try lia. exfalso. apply H.
  rewrite Hs, Ehl. f_equal. apply hdr_window_inside. lia.
Qed.

(** X9. The datagram [sendIcmpMessageWithSrcIP] hands to the collaborators
    is well formed: its payload is the message, its header has version 4,
    header length 5, protocol ICMP, total length 20 plus the message length,
    the given source and destination, the default time-to-live minus 1, and
    a checksum the router's own validator accepts. *)
Theorem sendIcmpMessageWithSrcIP_datagram_is_valid :
  forall (host : endianness) (K : ip_defaults) (C : collaborators)
         (s : sr_instance) (m : list Z) (len dst src : Z) (pos : nat)
         (e : sr_rt) (buf : datagram),
    (forall bs, 0 <= csum C bs < 2 ^ 16) ->
    ip_defaults_wf K -> DEFAULT_IP_TTL K <> 0 ->
    MIN_ICMP_MSG_LEN K <= len <= 2 ^ 16 - 21 -> 0 <= len ->
    0 < src < 2 ^ 32 -> 0 < dst < 2 ^ 32 ->
    lookupRoutingTable host s dst = Some (pos, e) ->
    malloc C (uint16 (20 + len)) = Some buf ->
    let r := sendIcmpMessageWithSrcIP host K C (Some s) (Some m) len dst src in
    exists d',
      only_datagram d' (trace r) /\
      dg_data d' = firstn (Z.to_nat len) m /\
      ip_v (dg_hdr d') = 4 /\ ip_hl (dg_hdr d') = 5 /\
      ip_p (dg_hdr d') = IPPROTO_ICMP /\
      ntohs host (ip_len (dg_hdr d')) = 20 + len /\
      ip_src (dg_hdr d') = src /\ ip_dst (dg_hdr d') = dst /\
      ip_ttl (dg_hdr d') = DEFAULT_IP_TTL K - 1 /\
      ipDatagramShouldBeDropped host C (dg_hdr d') = false.
Proof.
  intros host K C s m len dst src pos e buf Hcs (Htos & Hid & Hoff & Hdttl)
         Hnz Hlen Hlen0 Hsrc Hdst Hlook Hbuf r.
  subst r.
  assert (Htot : uint16 (20 + len) = 20 + len).
  { apply uint16_small. change (2 ^ 16) with 65536 in *. lia. }
  rewrite Htot in Hbuf.
  rewrite (sendIcmp_run host K C s m len dst src pos e buf) by (assumption || lia).
  set (d0 := {| dg_hdr := _; dg_data := _ |}).
  assert (Httl0 : ip_ttl (dg_hdr d0) = DEFAULT_IP_TTL K).
  { subst d0. cbn. apply uint8_small. exact Hdttl. }
  assert (Hlen0' : ntohs host (ip_len (dg_hdr d0)) = 20 + len).
  { subst d0. cbn [dg_hdr setupIPHeaderForICMP ip_len].
    apply ntohs_htons. change (2 ^ 16) with 65536 in *. lia. }
  destruct (ip_dec_ttl_returns host C d0)
    as (d' & Hrun & Hdata & Ht & _ & Ehl & Ev & Elen & Ep & Es & Ed);
    [rewrite Httl0; exact Hnz|].
  pose proof (ip_dec_ttl_valid host C d0 d' Hcs Hrun) as Hvalid.
  destruct (sendIPDatagram_trace host C s (gw e) (interface e) d0 d' None
              (20 + len) Hrun) as (Hres & Honly & _).
  exists d'. split.
  { destruct (sendIPDatagram host C s (gw e) (interface e) d0 None
                (20 + len)) as [t o].
    unfold result, trace in *. cbn [fst snd] in *. subst o.
    unfold only_datagram in *. constructor; [left; reflexivity|].
    apply Forall_app. split; [exact Honly|].
    constructor; [left; reflexivity|constructor]. }
  split; [rewrite Hdata; reflexivity|].
  split; [rewrite Ev; reflexivity|]. split; [rewrite Ehl; reflexivity|].
  split; [rewrite Ep; reflexivity|]. split; [rewrite Elen; exact Hlen0'|].
  split; [rewrite Es; cbn; apply uint32_small; lia|].
  split; [rewrite Ed; cbn; apply uint32_small; lia|].
  split; [rewrite Ht, Httl0; apply uint8_small; lia|].
  apply Hvalid.
  - rewrite Hlen0'. lia.
  - reflexivity.
  - cbn. unfold uint4, DEFAULT_IP_HEADER_LEN. cbn. lia.
Qed.

(** The echo reply for 10.0.0.3 leaves with time-to-live 63. *)
Lemma sendIcmpMessageWithSrcIP_datagram_is_valid_witness :
  exists d',
    only_datagram d'
      (trace (sendIcmpMessageWithSrcIP LittleEndian sample_defaults
                (sample_collaborators LittleEndian ARP_RESOLVE_SUCCESS)
                (Some (sample_router LittleEndian)) (Some sample_icmp_message) 8
                (inet_addr LittleEndian 10 0 0 3)
                (inet_addr LittleEndian 10 0 0 254))) /\
    ip_ttl (dg_hdr d') = 63.
Proof.
  destruct (sendIcmpMessageWithSrcIP_datagram_is_valid LittleEndian
              sample_defaults
              (sample_collaborators LittleEndian ARP_RESOLVE_SUCCESS)
              (sample_router LittleEndian) sample_icmp_message 8
              (inet_addr LittleEndian 10 0 0 3) (inet_addr LittleEndian 10 0 0 254)
              0%nat (rt_slash8 LittleEndian)
              {| dg_hdr := zero_hdr; dg_data := [] |})
    as (d' & Honly & _ & _ & _ & _ & _ & _ & _ & Httl & _).
  - intros bs. apply csum_spec_range.
  - vm_compute. repeat split; discriminate.
  - vm_compute. discriminate.
  - vm_compute. split; discriminate.
  - vm_compute. discriminate.
  - vm_compute. split; reflexivity.
  - vm_compute. split; reflexivity.
  - vm_compute. reflexivity.
  - reflexivity.
  - exists d'. split; [exact Honly|exact Httl].
Defined.



(** X11. [sendIcmpMessage] is [sendIcmpMessageWithSrcIP] with the address
    of the first interface of the list as source, whatever the route the
    message will take; on a router without interfaces it aborts, and so it
    does when the first interface has address zero. *)
Theorem sendIcmpMessage_uses_first_interface :
  forall (host : endianness) (K : ip_defaults) (C : collaborators)
         (s : sr_instance) (icmp_message : option (list Z)) (len dst : Z),
    (forall iface rest,
        if_list s = iface :: rest ->
        sendIcmpMessage host K C (Some s) icmp_message len dst =
        sendIcmpMessageWithSrcIP host K C (Some s) icmp_message len dst (ip iface)) /\
    (if_list s = [] ->
     sendIcmpMessage host K C (Some s) icmp_message len dst = ([], Aborted)) /\
    (forall iface rest,
        if_list s = iface :: rest -> ip iface = 0 ->
        sendIcmpMessage host K C (Some s) icmp_message len dst = ([], Aborted)).
Proof.
  intros host K C s msg len dst.
  assert (Hfirst : forall iface rest,
             if_list s = iface :: rest ->
             sendIcmpMessage host K C (Some s) msg len dst =
             sendIcmpMessageWithSrcIP host K C (Some s) msg len dst (ip iface)).
  { intros iface rest Hl. unfold sendIcmpMessage.
    destruct (len >=? MIN_ICMP_MSG_LEN K) eqn:Hlen;
      cbn [negb assert assert_ptr bind ret app].
    2:{ unfold sendIcmpMessageWithSrcIP. rewrite Hlen. reflexivity. }
    destruct msg as [m|]; cbn [negb assert assert_ptr bind ret app].
    2:{ unfold sendIcmpMessageWithSrcIP. rewrite Hlen. reflexivity. }
    destruct (dst =? 0) eqn:Hd; cbn [negb assert assert_ptr bind ret app].
    { unfold sendIcmpMessageWithSrcIP. rewrite Hlen, Hd.
      cbn [negb assert assert_ptr bind ret app].
      destruct (ip iface =? 0); reflexivity. }
    rewrite Hl. cbn [hd_error assert_ptr bind ret app].
    destruct (sendIcmpMessageWithSrcIP host K C (Some s) (Some m) len dst (ip iface))
      as [t o]. reflexivity. }
  split; [exact Hfirst|]. split.
  - intros Hl. unfold sendIcmpMessage.
    destruct (len >=? MIN_ICMP_MSG_LEN K);
      cbn [negb assert assert_ptr bind ret app]; [|reflexivity].
    destruct msg as [m|]; cbn [negb assert assert_ptr bind ret app];
      [|reflexivity].
    destruct (dst =? 0); cbn [negb assert assert_ptr bind ret app];
      [reflexivity|].
    rewrite Hl. reflexivity.
  - intros iface rest Hl Hz. rewrite (Hfirst iface rest Hl).
    unfold sendIcmpMessageWithSrcIP. rewrite Hz.
    destruct (len >=? MIN_ICMP_MSG_LEN K); [|reflexivity].
    destruct msg as [m|]; reflexivity.
Qed.

(** ** More on the routing-table lookup *)

Lemma land_le_l (a b : Z) : 0 <= a -> Z.land a b <= a.
Proof.
  intros Ha.
  assert (Hd : Z.land (Z.ldiff a b) (Z.land a b) = 0).
  { apply Z.bits_inj'. intros n Hn.
    rewrite Z.land_spec, Z.ldiff_spec, Z.land_spec, Z.bits_0.
    destruct (Z.testbit a n), (Z.testbit b n); reflexivity. }
  assert (Hs : Z.ldiff a b + Z.land a b = a).
  { rewrite (Z.add_nocarry_lxor _ _ Hd), (Z.lxor_lor _ _ Hd).
    apply Z.lor_ldiff_and. }
  assert (0 <= Z.ldiff a b) by (apply Z.ldiff_nonneg; auto).
  lia.
Qed.

(** A wider mask keeps a larger part of the address. *)
Lemma masked_dest_host_ip_mono (host : endianness) (d : Z) (e e' : sr_rt) :
  mask_within host e e' ->
  masked_dest_host_ip host d e <= masked_dest_host_ip host d e'.
Proof.
  unfold mask_within, masked_dest_host_ip. intros Hin.
  rewrite <- Hin at 1.
  rewrite (Z.land_comm (ntohl host (mask e))), Z.land_assoc.
  apply land_le_l. apply Z.land_nonneg. left. apply ntohl_nonneg.
Qed.

Lemma ntohl_zero (host : endianness) : ntohl host 0 = 0.
Proof. destruct host; reflexivity. Qed.

(** X12. A default route makes the lookup total: when the table holds an
    entry whose mask is 0.0.0.0, [lookupRoutingTable] returns an entry for
    every destination, whatever the destination field of that entry. *)
Theorem lookupRoutingTable_default_route :
  forall (host : endianness) (sr : sr_instance) (dest_host_ip : Z) (e : sr_rt),
    In e (routing_table sr) ->
    mask e = 0 ->
    rt_matches host dest_host_ip e = true /\
    exists pos e', lookupRoutingTable host sr dest_host_ip = Some (pos, e').
Proof.
  intros host sr d e Hin Hmask.
  assert (Hm : rt_matches host d e = true).
  { unfold rt_matches, masked_rt_dest_ip, masked_dest_host_ip.
    rewrite Hmask, ntohl_zero, !Z.land_0_r. reflexivity. }
  split; [exact Hm|].
  destruct (lookup_from_start host sr d)
    as [[_ Hall]|(pos & e' & Hsome & _)].
  - rewrite (Hall e Hin) in Hm. discriminate.
  - exists pos, e'. exact Hsome.
Qed.

(** With a default route in front of the /24 route, 192.168.1.1 finds an
    entry. *)
Lemma lookupRoutingTable_default_route_witness :
  exists pos e',
    lookupRoutingTable LittleEndian
      (sr_of_table [rt_default LittleEndian; rt_slash24 LittleEndian])
      (inet_addr LittleEndian 192 168 1 1) = Some (pos, e').
Proof.
  apply (lookupRoutingTable_default_route LittleEndian
           (sr_of_table [rt_default LittleEndian; rt_slash24 LittleEndian])
           (inet_addr LittleEndian 192 168 1 1) (rt_default LittleEndian)).
  - left. reflexivity.
  - reflexivity.
Defined.

(** X13. How far the lookup is a longest-prefix match.  A matching entry
    whose mask contains the mask of the returned entry, so one at least as
    specific, has the same masked address as the returned entry and does not
    come after it in the table: a more specific route is passed over only on
    a tie of the masked addresses, in favour of the later entry. *)
Theorem lookupRoutingTable_more_specific_only_ties :
  forall (host : endianness) (sr : sr_instance) (dest_host_ip : Z)
         (pos : nat) (e : sr_rt) (j : nat) (e' : sr_rt),
    lookupRoutingTable host sr dest_host_ip = Some (pos, e) ->
    nth_error (routing_table sr) j = Some e' ->
    rt_matches host dest_host_ip e' = true ->
    mask_within host e e' ->
    masked_dest_host_ip host dest_host_ip e' =
    masked_dest_host_ip host dest_host_ip e /\
    (j <= pos)%nat.
Proof.
  intros host sr d pos e j e' Hlook Hn Hm Hin.
  destruct (lookup_from_start host sr d)
    as [[Hnone _]|(pos0 & e0 & Hsome & _ & _ & Hmax & Hlast)].
  { rewrite Hnone in Hlook. discriminate. }
  rewrite Hsome in Hlook. inversion Hlook; subst pos0 e0.
  pose proof (Hmax e' (nth_error_In _ _ Hn) Hm) as Hle.
  pose proof (masked_dest_host_ip_mono host d e e' Hin) as Hge.
  split; [lia|].
  destruct (Nat.le_gt_cases j pos) as [Hj|Hj]; [exact Hj|].
  specialize (Hlast j e' Hj Hn Hm). lia.
Qed.

(** With 10.0.0.0/24 before 10.0.0.0/8, the lookup of 10.0.0.5 returns the
    /8 entry: the /24 entry ties with it and comes first. *)
Lemma lookupRoutingTable_more_specific_only_ties_witness :
  lookupRoutingTable LittleEndian
    (sr_of_table [rt_net24 LittleEndian; rt_slash8 LittleEndian])
    (inet_addr LittleEndian 10 0 0 5) = Some (1%nat, rt_slash8 LittleEndian) /\
  masked_dest_host_ip LittleEndian (inet_addr LittleEndian 10 0 0 5)
    (rt_net24 LittleEndian) =
  masked_dest_host_ip LittleEndian (inet_addr LittleEndian 10 0 0 5)
    (rt_slash8 LittleEndian) /\
  (0 <= 1)%nat.
Proof.
  split; [vm_compute; reflexivity|].
  apply (lookupRoutingTable_more_specific_only_ties LittleEndian
           (sr_of_table [rt_net24 LittleEndian; rt_slash8 LittleEndian])
           (inet_addr LittleEndian 10 0 0 5) 1%nat (rt_slash8 LittleEndian)
           0%nat (rt_net24 LittleEndian)).
  - vm_compute. reflexivity.
  - reflexivity.
  - vm_compute. reflexivity.
  - vm_compute. reflexivity.
Defined.

(** The loop on a table and on its matching entries alone: same bound,
    same entry. *)
Lemma lookup_loop_filter (host : endianness) (d : Z) (cur : list sr_rt) :
  forall (pos pos' : nat) (st st' : lookup_state),
    longest_prefix st = longest_prefix st' ->
    option_map snd (rt_entry_with_longest_prefix st) =
    option_map snd (rt_entry_with_longest_prefix st') ->
    longest_prefix (lookup_loop host d cur pos st) =
    longest_prefix (lookup_loop host d (filter (rt_matches host d) cur) pos' st') /\
    option_map snd (rt_entry_with_longest_prefix (lookup_loop host d cur pos st)) =
    option_map snd
      (rt_entry_with_longest_prefix
         (lookup_loop host d (filter (rt_matches host d) cur) pos' st')).
Proof.
  induction cur as [|e next IH]; intros pos pos' st st' Hlp Hent.
  - cbn. split; assumption.
  - assert (Hrm : (masked_rt_dest_ip host e =? masked_dest_host_ip host d e)
                  = rt_matches host d e) by reflexivity.
    cbn [filter lookup_loop]. rewrite Hrm.
    destruct (rt_matches host d e) eqn:Hm; cbn [andb].
    + cbn [lookup_loop]. rewrite ?Hrm, ?Hm, <- Hlp. cbn [andb].
      destruct (masked_dest_host_ip host d e >=? longest_prefix st).
      * apply IH; reflexivity.
      * apply IH; assumption.
    + apply IH; assumption.
Qed.

(** X14. Entries that do not match the destination never influence the
    lookup: two tables with the same matching entries in the same order give
    the same entry, whatever else they hold and wherever it stands. *)
Theorem lookupRoutingTable_ignores_other_entries :
  forall (host : endianness) (sr1 sr2 : sr_instance) (dest_host_ip : Z),
    filter (rt_matches host dest_host_ip) (routing_table sr1) =
    filter (rt_matches host dest_host_ip) (routing_table sr2) ->
    option_map snd (lookupRoutingTable host sr1 dest_host_ip) =
    option_map snd (lookupRoutingTable host sr2 dest_host_ip).
Proof.
  intros host sr1 sr2 d Hf. unfold lookupRoutingTable.
  set (st0 := {| longest_prefix := 0; rt_entry_with_longest_prefix := None |}).
  destruct (lookup_loop_filter host d (routing_table sr1) 0 0 st0 st0 eq_refl eq_refl)
    as (_ & H1).
  destruct (lookup_loop_filter host d (routing_table sr2) 0 0 st0 st0 eq_refl eq_refl)
    as (_ & H2).
  rewrite H1, H2, Hf. reflexivity.
Qed.

(** For 10.0.2.5 the sample table and the table with the /8 route alone
    agree. *)
Lemma lookupRoutingTable_ignores_other_entries_witness :
  option_map snd
    (lookupRoutingTable LittleEndian (sample_router LittleEndian)
       (inet_addr LittleEndian 10 0 2 5)) =
  option_map snd
    (lookupRoutingTable LittleEndian (sr_of_table [rt_slash8 LittleEndian])
       (inet_addr LittleEndian 10 0 2 5)).
Proof.
  apply lookupRoutingTable_ignores_other_entries.
  vm_compute. reflexivity.
Defined.

(** ** An edge of the validator *)

(** X15. The validator has no lower bound on the header length.  A header
    with total length at least 20, version 4 and header length 0 is
    checksummed over no byte at all: it is accepted exactly when its
    checksum field equals [csum] of the empty buffer, whatever its other
    fields hold. *)
Theorem ipDatagramShouldBeDropped_header_length_zero :
  forall (host : endianness) (C : collaborators) (h : ip_hdr),
    ntohs host (ip_len h) >= 20 ->
    ip_v h = 4 ->
    ip_hl h = 0 ->
    (ipDatagramShouldBeDropped host C h = false <-> ip_sum h = csum C []).
Proof.
  intros host C h Hlen Hv Hhl.
  assert (Hw : hdr_window host (set_ip_sum h 0) [] (4 * ip_hl h) = []).
  { rewrite Hhl. reflexivity. }
  split.
  - intros Hacc.
    destruct (Z.eq_dec (ip_sum h) (csum C [])) as [Heq|Hne]; [exact Heq|].
    assert (Hd : ipDatagramShouldBeDropped host C h = true).
    { apply should_drop_tests. rewrite Hw. auto. }
    congruence.
  - intros Heq.
    destruct (ipDatagramShouldBeDropped host C h) eqn:Hd; [|reflexivity].
    apply should_drop_tests in Hd. rewrite Hw in Hd.
    destruct Hd as [H|[H|[H|H]]]; [lia|contradiction|lia|contradiction].
Qed.

(** A header of that kind, with a source and a destination never summed. *)
Lemma ipDatagramShouldBeDropped_header_length_zero_witness :
  ipDatagramShouldBeDropped LittleEndian
    (sample_collaborators LittleEndian ARP_RESOLVE_SUCCESS)
    {| ip_hl := 0; ip_v := 4; ip_tos := 0; ip_len := htons LittleEndian 28;
       ip_id := 0; ip_off := 0; ip_ttl := 9; ip_p := 17; ip_sum := 65535;
       ip_src := inet_addr LittleEndian 192 168 0 2;
       ip_dst := inet_addr LittleEndian 10 0 1 5 |} = false.
Proof.
  apply ipDatagramShouldBeDropped_header_length_zero.
  - vm_compute. discriminate.
  - reflexivity.
  - reflexivity.
  - vm_compute. reflexivity.
Defined.

(** ** Adding a route at the end of the table *)

Lemma lookup_loop_app (host : endianness) (d : Z) (t1 t2 : list sr_rt) :
  forall (pos : nat) (st : lookup_state),
    lookup_loop host d (t1 ++ t2) pos st =
    lookup_loop host d t2 (pos + List.length t1)%nat (lookup_loop host d t1 pos st).
Proof.
  induction t1 as [|e t1 IH]; intros pos st.
  - cbn. f_equal. lia.
  - cbn [app lookup_loop List.length]. rewrite IH. f_equal. lia.
Qed.

(** X16. A route appended to the table takes over a destination exactly
    when it matches it and its masked address is not below that of the entry
    found so far (or none was found); it is then returned with the position
    at the end of the table.  Otherwise the lookup is as before. *)
Theorem lookupRoutingTable_append :
  forall (host : endianness) (sr : sr_instance) (dest_host_ip : Z) (e : sr_rt),
    lookupRoutingTable host
      {| if_list := if_list sr; routing_table := routing_table sr ++ [e] |}
      dest_host_ip =
    if rt_matches host dest_host_ip e
       && match lookupRoutingTable host sr dest_host_ip with
          | Some (_, e0) =>
              masked_dest_host_ip host dest_host_ip e >=?
              masked_dest_host_ip host dest_host_ip e0
          | None => true
          end
    then Some (List.length (routing_table sr), e)
    else lookupRoutingTable host sr dest_host_ip.
Proof.
  intros host sr d e. unfold lookupRoutingTable. cbn [routing_table].
  rewrite lookup_loop_app. cbn [lookup_loop Nat.add].
  set (st0 := {| longest_prefix := 0; rt_entry_with_longest_prefix := None |}).
  change (masked_rt_dest_ip host e =? masked_dest_host_ip host d e)
    with (rt_matches host d e).
  destruct (lookup_loop_spec host d (routing_table sr) 0%nat st0)
    as (_ & _ & [[Heq _]|(j & e0 & _ & _ & Heq & _)]).
  - rewrite Heq. subst st0. cbn [longest_prefix rt_entry_with_longest_prefix].
    assert (Hge : (masked_dest_host_ip host d e >=? 0) = true).
    { apply Z.geb_le. apply masked_dest_host_ip_nonneg. }
    rewrite Hge. destruct (rt_matches host d e); reflexivity.
  - rewrite Heq. cbn [longest_prefix rt_entry_with_longest_prefix].
    destruct (rt_matches host d e
              && (masked_dest_host_ip host d e >=? masked_dest_host_ip host d e0));
      reflexivity.
Qed.
